(** * The edge gateway of the distributed file-storage demo

    A shallow embedding of [api-gateway/server.js]: the Redis-backed rate
    limiter and the throttle, the bearer-token check, the response cache,
    the two reverse proxies with their event hooks, and the health route.

    JavaScript values are modelled by [jsval]; every [await]ed call on the
    Redis client or on the Kafka producer is a step of a state-and-exception
    monad over [world], so that a [try { ... } catch] of the source is a
    [try_catch] here and the effects made before a throw are kept. *)

From Stdlib Require Import ZArith Ascii String DecimalString DecimalZ.
From stdpp Require Import gmap strings list.

Local Open Scope string_scope.
Local Open Scope Z_scope.

(** ** JavaScript values and the string operations the gateway uses *)

Module Js.

#[local] Unset Elimination Schemes.
Inductive jsval : Type :=
  | JUndefined
  | JNull
  | JBool (b : bool)
  | JNum (n : Z)
  | JStr (s : string)
  | JArr (items : list jsval)
  | JObj (fields : list (string * jsval)).
#[local] Set Elimination Schemes.

(** Decimal text of an integer, as Redis and template literals print it. *)
Definition print_int (n : Z) : string := NilZero.string_of_int (Z.to_int n).

(** The inverse: only the canonical decimal text of an integer is read back
    (no sign [+], no leading zero, no empty text). *)
Definition parse_int (s : string) : option Z :=
  match NilZero.int_of_string s with
  | Some d => let n := Z.of_int d in
              if String.eqb (print_int n) s then Some n else None
  | None => None
  end.

(** [!!v] of JavaScript. *)
Definition truthy (v : jsval) : bool :=
  match v with
  | JUndefined | JNull => false
  | JBool b => b
  | JNum n => negb (n =? 0)
  | JStr s => negb (String.eqb s "")
  | JArr _ | JObj _ => true
  end.

(** [a || b]. *)
Definition or_else (a b : jsval) : jsval := if truthy a then a else b.

(** [o?.name] and [o.name] on a value that is an object or a primitive. *)
Fixpoint assoc (name : string) (fields : list (string * jsval)) : jsval :=
  match fields with
  | [] => JUndefined
  | (k, v) :: rest => if String.eqb k name then v else assoc name rest
  end.

Definition field (name : string) (o : jsval) : jsval :=
  match o with
  | JObj fields => assoc name fields
  | _ => JUndefined
  end.

(** [{...o, name: v}]: an own property keeps its place, a new one is added
    last. *)
Fixpoint assign (name : string) (v : jsval) (fields : list (string * jsval))
  : list (string * jsval) :=
  match fields with
  | [] => [(name, v)]
  | (k, x) :: rest =>
      if String.eqb k name then (k, v) :: rest else (k, x) :: assign name v rest
  end.

(** The text a template literal [`${v}`] inserts.  [JNum n] stands for a
    number that is an integer below 10^21 in absolute value, which
    JavaScript prints in plain decimal; larger numbers, printed in exponent
    form, are outside this model. *)
Fixpoint ToString (v : jsval) : string :=
  match v with
  | JUndefined => "undefined"
  | JNull => "null"
  | JBool true => "true"
  | JBool false => "false"
  | JNum n => print_int n
  | JStr s => s
  | JArr items =>
      let item (x : jsval) : string :=
        match x with
        | JUndefined | JNull => ""
        | _ => ToString x
        end in
      (fix join (l : list jsval) : string :=
         match l with
         | [] => ""
         | [x] => item x
         | x :: rest => item x +:+ "," +:+ join rest
         end) items
  | JObj _ => "[object Object]"
  end.

(** [s.split(sep)] for a one-character separator. *)
Fixpoint split (sep : ascii) (s : string) : list string :=
  match s with
  | EmptyString => [EmptyString]
  | String c rest =>
      if Ascii.eqb c sep then EmptyString :: split sep rest
      else match split sep rest with
           | [] => [String c EmptyString]
           | w :: ws => String c w :: ws
           end
  end.

(** [s.includes(sub)]. *)
Fixpoint includes (sub s : string) : bool :=
  String.prefix sub s ||
  match s with
  | EmptyString => false
  | String _ rest => includes sub rest
  end.

End Js.
Import Js.

(** ** Requests, responses and the world the gateway runs in *)

(** The fields of an Express request that [server.js] reads.  [req_now] is
    the clock reading (milliseconds) at which the request is served. *)
Record request := Request {
  req_now : Z;
  req_ip : string;
  req_method : string;
  req_originalUrl : string;
  req_path : string;
  req_authorization : option string;
  req_body : jsval;
  req_file : jsval;
  req_params : jsval;
  req_user : jsval
}.

Definition set_user (u : jsval) (r : request) : request :=
  {| req_now := req_now r; req_ip := req_ip r; req_method := req_method r;
     req_originalUrl := req_originalUrl r; req_path := req_path r;
     req_authorization := req_authorization r; req_body := req_body r;
     req_file := req_file r; req_params := req_params r; req_user := u |}.

(** What reaches the client: [SentJson v] is [res.json(v)], [SentRaw s] a
    body written to the socket as it is (a proxied body, a library page). *)
Inductive sent : Type :=
  | SentJson (v : jsval)
  | SentRaw (s : string).

Record response := Response { res_status : Z; res_sent : sent }.

(** A key of the shared store: its text and, when one was set, the clock
    reading at which Redis drops it. *)
Record entry := Entry { ent_value : string; ent_expireAt : option Z }.

(** A message handed to [producer.send]. *)
Record message := Message {
  msg_topic : string;
  msg_key : jsval;
  msg_value : string
}.

(** Calls that leave the process, in the order they are made. *)
Inductive call : Type :=
  | CallVerify (token : string)
  | CallBackend (target : string) (r : request).

(** [redis_faults] and [kafka_faults] are the outcomes of the coming
    commands on the two clients ([true]: the call rejects); when the list is
    used up the commands succeed.  [slow_hits] is the in-process counter
    table of the throttle: a count and the time its window ends. *)
Record world := World {
  redis_db : gmap string entry;
  redis_isOpen : bool;
  redis_faults : list bool;
  slow_hits : gmap string (Z * Z);
  kafka_log : list message;
  kafka_faults : list bool;
  calls : list call
}.

Definition with_db (f : gmap string entry -> gmap string entry) (w : world) : world :=
  {| redis_db := f (redis_db w); redis_isOpen := redis_isOpen w;
     redis_faults := redis_faults w; slow_hits := slow_hits w;
     kafka_log := kafka_log w; kafka_faults := kafka_faults w;
     calls := calls w |}.

Definition with_redis_faults (fs : list bool) (w : world) : world :=
  {| redis_db := redis_db w; redis_isOpen := redis_isOpen w;
     redis_faults := fs; slow_hits := slow_hits w;
     kafka_log := kafka_log w; kafka_faults := kafka_faults w;
     calls := calls w |}.

Definition with_slow_hits (h : gmap string (Z * Z)) (w : world) : world :=
  {| redis_db := redis_db w; redis_isOpen := redis_isOpen w;
     redis_faults := redis_faults w; slow_hits := h;
     kafka_log := kafka_log w; kafka_faults := kafka_faults w;
     calls := calls w |}.

Definition with_kafka (l : list message) (fs : list bool) (w : world) : world :=
  {| redis_db := redis_db w; redis_isOpen := redis_isOpen w;
     redis_faults := redis_faults w; slow_hits := slow_hits w;
     kafka_log := l; kafka_faults := fs;
     calls := calls w |}.

Definition with_call (c : call) (w : world) : world :=
  {| redis_db := redis_db w; redis_isOpen := redis_isOpen w;
     redis_faults := redis_faults w; slow_hits := slow_hits w;
     kafka_log := kafka_log w; kafka_faults := kafka_faults w;
     calls := calls w ++ [c] |}.

(** ** State and exceptions *)

Inductive result (A : Type) : Type :=
  | Ok (a : A)
  | Thrown.
Arguments Ok {A} a.
Arguments Thrown {A}.

Definition M (A : Type) : Type := world -> result A * world.

Definition ret {A} (a : A) : M A := fun w => (Ok a, w).

Definition throw {A} : M A := fun w => (Thrown, w).

Definition bind {A B} (m : M A) (k : A -> M B) : M B :=
  fun w => match m w with
           | (Ok a, w') => k a w'
           | (Thrown, w') => (Thrown, w')
           end.

(** [try { body } catch (error) { handler }] *)
Definition try_catch {A} (body handler : M A) : M A :=
  fun w => match body w with
           | (Ok a, w') => (Ok a, w')
           | (Thrown, w') => handler w'
           end.

(** A promise that is started and not awaited: its rejection is seen by
    no handler, and the caller goes on.  What the runtime does with a
    rejection that nobody handles (Node ends the process, from version 15
    on) lies outside this model. *)
Definition detached (m : M unit) : M unit := try_catch m (ret tt).

Notation "'let*' x ':=' m 'in' k" := (bind m (fun x => k))
  (at level 10, x name, m at level 100, k at level 200).
Notation "m ;;; k" := (bind m (fun _ => k))
  (at level 100, right associativity).

(** ** The Redis client *)

Module Redis.

Definition live (t : Z) (e : entry) : bool :=
  match ent_expireAt e with
  | None => true
  | Some deadline => t <? deadline
  end.

(** The entry Redis holds for [key] at time [t]: an entry past its deadline
    is gone. *)
Definition find (t : Z) (key : string) (db : gmap string entry) : option entry :=
  match db !! key with
  | Some e => if live t e then Some e else None
  | None => None
  end.

(** One command on the connection: it rejects when the next scheduled
    outcome is a fault. *)
Definition command {A} (run : M A) : M A :=
  fun w => match redis_faults w with
           | true :: fs => (Thrown, with_redis_faults fs w)
           | false :: fs => run (with_redis_faults fs w)
           | [] => run w
           end.

(** GET: the text, or [None] for JavaScript's [null]. *)
Definition get (t : Z) (key : string) : M (option string) :=
  command (fun w => (Ok (ent_value <$> find t key (redis_db w)), w)).

(** INCR and DECR: a missing key counts from 0 and gets no deadline, a key
    that holds a decimal integer keeps its deadline, any other text is an
    error.  Redis integers are taken unbounded here. *)
Definition add (delta : Z) (t : Z) (key : string) : M Z :=
  command (fun w =>
    match find t key (redis_db w) with
    | None =>
        (Ok delta, with_db <[key := Entry (print_int delta) None]> w)
    | Some e =>
        match parse_int (ent_value e) with
        | Some n =>
            (Ok (n + delta),
             with_db <[key := Entry (print_int (n + delta)) (ent_expireAt e)]> w)
        | None => (Thrown, w)
        end
    end).

Definition incr : Z -> string -> M Z := add 1.
Definition decr : Z -> string -> M Z := add (-1).

(** EXPIRE [key] [seconds]: whether a key was there to take the deadline. *)
Definition expire (t : Z) (key : string) (seconds : Z) : M bool :=
  command (fun w =>
    match find t key (redis_db w) with
    | None => (Ok false, w)
    | Some e =>
        (Ok true,
         with_db <[key := Entry (ent_value e) (Some (t + 1000 * seconds))]> w)
    end).

(** SETEX [key] [seconds] [text]. *)
Definition setEx (t : Z) (key : string) (seconds : Z) (text : string) : M unit :=
  command (fun w =>
    (Ok tt, with_db <[key := Entry text (Some (t + 1000 * seconds))]> w)).

(** DEL [key]. *)
Definition del (key : string) : M unit :=
  command (fun w => (Ok tt, with_db (delete key) w)).

End Redis.

(** ** [class RedisStore]: the store handed to the rate limiter *)

Module RedisStore.

(** [increment(key)]: the hit count after this request; any failure of the
    two commands is caught and answered with a count of 1. *)
Definition increment (t : Z) (key : string) : M Z :=
  try_catch
    (let* count := Redis.incr t key in
     (if count =? 1
      then (let* _ := Redis.expire t key 900 in ret tt)
      else ret tt) ;;;
     ret count)
    (ret 1).

Definition decrement (t : Z) (key : string) : M unit :=
  try_catch (let* _ := Redis.decr t key in ret tt) (ret tt).

Definition resetKey (key : string) : M unit :=
  try_catch (Redis.del key) (ret tt).

End RedisStore.

(** ** The two rate middlewares *)

Record rateLimit_options := {
  windowMs : Z;
  max : Z;
  store_increment : Z -> string -> M Z
}.

(** The answer to a client over the limit. *)
Definition too_many : response :=
  Response 429 (SentRaw "Too many requests, please try again later.").

(** Modelled from the spec: the request handler built by
    [rateLimit(options)] of express-rate-limit is not among the sources.
    Following section 4.2: the counter of the client address is incremented
    through the store; when the count after the increment exceeds [max] the
    request is answered with the rate-limit error 429 and the counter is
    left as it is, otherwise the request goes on ([None]). *)
Definition rateLimit (o : rateLimit_options) (req : request) : M (option response) :=
  let* totalHits := store_increment o (req_now req) (req_ip req) in
  if max o <? totalHits
  then ret (Some too_many)
  else ret None.

(** [standardHeaders] and [legacyHeaders] only select response headers and
    are left out; [store_increment] is the [increment] of
    [new RedisStore(redisClient)]. *)
Definition limiter : request -> M (option response) :=
  rateLimit {| windowMs := 15 * 60 * 1000;
               max := 100;
               store_increment := RedisStore.increment |}.

Record slowDown_options := {
  sd_windowMs : Z;
  delayAfter : Z;
  delayMs : Z
}.

(** Modelled from the spec: the handler built by [slowDown(options)] of
    express-slow-down is not among the sources.  The source gives it no
    [store] (only the limiter is given the [RedisStore]), so it does not
    read the counter in Redis: it counts, in the table [slow_hits] of the
    process, the requests that reach it.  What the spec is followed for is
    the shape of that counter and the delay (sections 3 and 4.2): a counter
    per client address, created by the first request of a window and
    dropped when the window ends; a count above [delayAfter] delays the
    request by [delayMs] for every request above the threshold.  The result
    is the delay in milliseconds. *)
Definition slowDown (o : slowDown_options) (req : request) : M Z :=
  fun w =>
    let t := req_now req in
    let fresh := (1, t + sd_windowMs o) in
    let hit := match slow_hits w !! req_ip req with
               | Some (n, deadline) => if t <? deadline then (n + 1, deadline) else fresh
               | None => fresh
               end in
    (Ok (if delayAfter o <? hit.1 then (hit.1 - delayAfter o) * delayMs o else 0),
     with_slow_hits (<[req_ip req := hit]> (slow_hits w)) w).

Definition speedLimiter : request -> M Z :=
  slowDown {| sd_windowMs := 15 * 60 * 1000; delayAfter := 50; delayMs := 500 |}.

(** The outcome of [app.use(limiter); app.use(speedLimiter);] for one
    request, in the words of the contract of section 4.2. *)
Inductive verdict : Type :=
  | Allow
  | Delay (ms : Z)
  | Reject (r : response).

Definition rate_check (req : request) : M verdict :=
  let* rejected := limiter req in
  match rejected with
  | Some r => ret (Reject r)
  | None => let* ms := speedLimiter req in
            ret (if ms =? 0 then Allow else Delay ms)
  end.

(** The verdicts of a sequence of requests served one after the other. *)
Fixpoint serve (rs : list request) (w : world) : list verdict * world :=
  match rs with
  | [] => ([], w)
  | r :: rest =>
      let (v, w1) := rate_check r w in
      let (vs, w2) := serve rest w1 in
      (match v with Ok d => d | Thrown => Reject (Response 500 (SentRaw "")) end :: vs, w2)
  end.

(** ** The libraries and collaborators the gateway is given *)

(** The answer of a backend as the proxy sees it. *)
Record proxyRes := ProxyRes { statusCode : Z; proxy_body : string }.

(** - [jwt_verify t token] is [jwt.verify(token, secret)] at clock reading
      [t]: the decoded payload, or [None] when it throws (bad signature,
      expired);
    - [JSON_stringify] and [JSON_parse] are the two functions of [JSON]
      ([None]: a syntax error is thrown);
    - [toISOString t] is [new Date().toISOString()] at clock reading [t];
    - [upstream target req] is the answer of the service behind [target],
      [None] when it cannot be reached. *)
Record env := Env {
  jwt_verify : Z -> string -> option jsval;
  JSON_stringify : jsval -> string;
  JSON_parse : string -> option jsval;
  toISOString : Z -> string;
  upstream : string -> request -> option proxyRes
}.

(** The response object as the handlers see it: [json_wrapper] is the cache
    key captured by the replacement of [res.json] that [cacheMiddleware]
    installs, [None] while [res.json] is Express's own. *)
Record res_obj := ResObj { json_wrapper : option string }.

(** What a middleware does with a request: it answers, or it calls
    [next()]. *)
Inductive step : Type :=
  | Done (r : response)
  | Next (req : request) (res : res_obj).

Definition AUTH_SERVICE_URL : string := "http://auth-service:3001".
Definition FILE_SERVICE_URL : string := "http://file-service:3002".

Section Gateway.

Variable E : env.

(** [res.status(status).json(data)]: through the wrapper when one is
    installed (a SETEX for 300 seconds that is not awaited, then the
    original), else the original. *)
Definition res_json (res : res_obj) (t : Z) (status : Z) (data : jsval) : M response :=
  match json_wrapper res with
  | Some cacheKey =>
      detached (Redis.setEx t cacheKey 300 (JSON_stringify E data)) ;;;
      ret (Response status (SentJson data))
  | None => ret (Response status (SentJson data))
  end.

(** The body text that reaches the client. *)
Definition wire (s : sent) : string :=
  match s with
  | SentJson v => JSON_stringify E v
  | SentRaw text => text
  end.

Definition error_body (text : string) : jsval := JObj [("error", JStr text)].

(** *** JWT verification middleware *)

(** [req.headers.authorization?.split(' ')[1]] *)
Definition bearer (req : request) : option string :=
  match req_authorization req with
  | None => None
  | Some header => split " " header !! 1%nat
  end.

(** [jwt.verify(token, secret)], noted in [calls]. *)
Definition jwt_verify_call (t : Z) (token : string) : M jsval :=
  fun w =>
    match jwt_verify E t token with
    | Some decoded => (Ok decoded, with_call (CallVerify token) w)
    | None => (Thrown, with_call (CallVerify token) w)
    end.

Definition falsy_text (o : option string) : bool :=
  match o with
  | None => true
  | Some s => String.eqb s ""
  end.

Definition verifyToken (req : request) (res : res_obj) : M step :=
  let t := req_now req in
  try_catch
    (let token := bearer req in
     if falsy_text token
     then let* r := res_json res t 401 (error_body "No token provided") in ret (Done r)
     else
       let token := default "" token in
       let* cachedToken := Redis.get t ("token:" +:+ token) in
       if bool_decide (cachedToken = Some "blacklisted")
       then let* r := res_json res t 401 (error_body "Token has been revoked") in ret (Done r)
       else
         let* decoded := jwt_verify_call t token in
         let userKey := "user:" +:+ ToString (field "userId" decoded) in
         let* cachedUser := Redis.get t userKey in
         (if falsy_text cachedUser
          then Redis.setEx t userKey 3600 (JSON_stringify E decoded)
          else ret tt) ;;;
         ret (Next (set_user decoded req) res))
    (let* r := res_json res t 401 (error_body "Invalid or expired token") in ret (Done r)).

(** *** Cache middleware *)

Definition cacheKey_of (req : request) : string :=
  "cache:" +:+ req_originalUrl req +:+ ":" +:+
  ToString (or_else (field "userId" (req_user req)) (JStr "anonymous")).

Definition JSON_parse_call (text : string) : M jsval :=
  match JSON_parse E text with
  | Some v => ret v
  | None => throw
  end.

Definition cacheMiddleware (req : request) (res : res_obj) : M step :=
  if negb (String.eqb (req_method req) "GET")
  then ret (Next req res)
  else
    let cacheKey := cacheKey_of req in
    try_catch
      (let* cached := Redis.get (req_now req) cacheKey in
       if falsy_text cached
       then ret (Next req (ResObj (Some cacheKey)))
       else
         let* data := JSON_parse_call (default "" cached) in
         let* r := res_json res (req_now req) 200 data in
         ret (Done r))
      (ret (Next req res)).

(** *** Event publishing helper *)

(** [producer.send] with a single message. *)
Definition producer_send (m : message) : M unit :=
  fun w =>
    match kafka_faults w with
    | true :: fs => (Thrown, with_kafka (kafka_log w) fs w)
    | false :: fs => (Ok tt, with_kafka (kafka_log w ++ [m]) fs w)
    | [] => (Ok tt, with_kafka (kafka_log w ++ [m]) [] w)
    end.

Definition publishEvent (t : Z) (topic : string) (event : list (string * jsval)) : M unit :=
  try_catch
    (producer_send
       {| msg_topic := topic;
          msg_key := or_else (assoc "userId" event) (JStr "system");
          msg_value :=
            JSON_stringify E (JObj (assign "timestamp" (JStr (toISOString E t)) event)) |})
    (ret tt).

(** [setImmediate(async () => { ... })]: the task runs once the current
    call has returned, and nobody awaits it. *)
Definition setImmediate (task : M unit) : M unit := detached task.

(** *** Health check *)

Definition health (req : request) (res : res_obj) : M response :=
  fun w =>
    let redisStatus := if redis_isOpen w then "connected" else "disconnected" in
    res_json res (req_now req) 200
      (JObj [("status", JStr "OK");
             ("service", JStr "api-gateway");
             ("redis", JStr redisStatus);
             ("timestamp", JStr (toISOString E (req_now req)))]) w.

(** *** The proxies *)

(** Modelled from the spec: [createProxyMiddleware] of
    http-proxy-middleware is not among the sources.  Following section 4.4:
    the request is forwarded to the backend behind [target], the [onProxyRes]
    hook is run on the backend's answer, and status and body are streamed
    back to the client unmodified (they are piped to the socket, [res.json]
    is not called); a backend that cannot be reached is answered with the
    502-equivalent. *)
Definition createProxyMiddleware (target : string)
    (onProxyRes : proxyRes -> request -> M unit)
    (req : request) (res : res_obj) : M response :=
  fun w =>
    let w1 := with_call (CallBackend target req) w in
    match upstream E target req with
    | None => (Ok (Response 502 (SentRaw "")), w1)
    | Some pr =>
        (detached (onProxyRes pr req) ;;;
         ret (Response (statusCode pr) (SentRaw (proxy_body pr)))) w1
    end.

Definition authProxy_onProxyRes (pr : proxyRes) (req : request) : M unit :=
  let t := req_now req in
  (if String.eqb (req_method req) "POST" && includes "/login" (req_path req)
      && (statusCode pr =? 200)
   then setImmediate
          (publishEvent t "user-events"
             [("type", JStr "USER_LOGIN_ATTEMPT");
              ("email", field "email" (req_body req));
              ("timestamp", JStr (toISOString E t))])
   else ret tt) ;;;
  (if String.eqb (req_method req) "POST" && includes "/register" (req_path req)
      && (statusCode pr =? 201)
   then setImmediate
          (publishEvent t "user-events"
             [("type", JStr "USER_REGISTERED");
              ("username", field "username" (req_body req));
              ("email", field "email" (req_body req));
              ("timestamp", JStr (toISOString E t))])
   else ret tt).

Definition authProxy : request -> res_obj -> M response :=
  createProxyMiddleware AUTH_SERVICE_URL authProxy_onProxyRes.

Definition fileProxy_onProxyRes (pr : proxyRes) (req : request) : M unit :=
  let t := req_now req in
  (if String.eqb (req_method req) "POST" && includes "/upload" (req_path req)
      && (statusCode pr =? 201)
   then setImmediate
          (publishEvent t "file-events"
             [("type", JStr "FILE_UPLOADED");
              ("userId", field "userId" (req_user req));
              ("filename", or_else (field "originalname" (req_file req))
                                   (field "filename" (req_body req)));
              ("timestamp", JStr (toISOString E t))])
   else ret tt) ;;;
  (if String.eqb (req_method req) "DELETE" && (statusCode pr =? 200)
   then setImmediate
          (publishEvent t "file-events"
             [("type", JStr "FILE_DELETED");
              ("userId", field "userId" (req_user req));
              ("fileId", field "id" (req_params req));
              ("timestamp", JStr (toISOString E t))])
   else ret tt).

Definition fileProxy : request -> res_obj -> M response :=
  createProxyMiddleware FILE_SERVICE_URL fileProxy_onProxyRes.

(** *** Routes *)

(** [app.use('/api/auth', authProxy)] *)
Definition api_auth (req : request) : M response :=
  authProxy req (ResObj None).

(** [app.use('/api/files', verifyToken, cacheMiddleware, fileProxy)] *)
Definition api_files (req : request) : M response :=
  let* s1 := verifyToken req (ResObj None) in
  match s1 with
  | Done r => ret r
  | Next req1 res1 =>
      let* s2 := cacheMiddleware req1 res1 in
      match s2 with
      | Done r => ret r
      | Next req2 res2 => fileProxy req2 res2
      end
  end.

End Gateway.

(** ** The notions the properties are stated with *)

(** The length of a rate window, in milliseconds. *)
Definition window : Z := 15 * 60 * 1000.

(** The store holds no live counter of [a] at time [t], and it answers. *)
Definition fresh_store (a : string) (t : Z) (w : world) : Prop :=
  Redis.find t a (redis_db w) = None ∧ redis_faults w = [].

(** No counter of [a] is alive at time [t], in the store or in the
    throttle's table, and the store answers. *)
Definition fresh (a : string) (t : Z) (w : world) : Prop :=
  fresh_store a t w ∧
  match slow_hits w !! a with
  | Some (_, deadline) => deadline <= t
  | None => True
  end.

(** The store has counted [k] requests of [a] in the window that ends at
    [deadline]. *)
Definition store_counting (a : string) (k deadline : Z) (w : world) : Prop :=
  redis_db w !! a = Some (Entry (print_int k) (Some deadline)) ∧
  redis_faults w = [].


(** The hard cap on the verdict of the [n]-th request of a window. *)
Definition within_hard_cap (n : Z) (v : verdict) : Prop :=
  (n <= 100 → v = Allow ∨ ∃ ms, v = Delay ms) ∧
  (100 < n → v = Reject too_many).


(** The number of requests of [a] among [rs]. *)
Definition hits (a : string) (rs : list request) : Z :=
  Z.of_nat (length (filter (λ r, req_ip r = a) rs)).

(** The rank of the request at position [i] among the requests of [a]. *)
Definition rank (a : string) (rs : list request) (i : nat) : Z :=
  hits a (take (S i) rs).


(** The keys of the identity cache. *)
Definition identity_key (k : string) : bool := String.prefix "user:" k.

(** Two worlds that differ at most in the identity cache. *)
Definition same_but_identity_cache (w1 w2 : world) : Prop :=
  (∀ k, identity_key k = false → redis_db w1 !! k = redis_db w2 !! k) ∧
  redis_faults w1 = redis_faults w2.

(** The result of a middleware, its effects on the world set aside. *)
Definition outcome {A} (run : result A * world) : result A := run.1.

(** What the proxy does to the store: nothing, also when [res.json] has
    been replaced by the caching wrapper. *)
Definition leaves_store {A} (m : M A) : Prop :=
  ∀ w, redis_db (m w).2 = redis_db w.

(** The message [publishEvent] hands to the producer. *)
Definition published (E : env) (t : Z) (topic : string) (event : list (string * jsval)) : message :=
  {| msg_topic := topic;
     msg_key := or_else (assoc "userId" event) (JStr "system");
     msg_value :=
       JSON_stringify E (JObj (assign "timestamp" (JStr (toISOString E t)) event)) |}.

(** The patterns of section 4.5, on the request and the answer of the
    backend. *)
Definition login_pattern (req : request) (pr : proxyRes) : Prop :=
  req_method req = "POST" ∧ includes "/login" (req_path req) = true ∧
  statusCode pr = 200.

Definition register_pattern (req : request) (pr : proxyRes) : Prop :=
  req_method req = "POST" ∧ includes "/register" (req_path req) = true ∧
  statusCode pr = 201.

Definition upload_pattern (req : request) (pr : proxyRes) : Prop :=
  req_method req = "POST" ∧ includes "/upload" (req_path req) = true ∧
  statusCode pr = 201.

Definition delete_pattern (req : request) (pr : proxyRes) : Prop :=
  req_method req = "DELETE" ∧ statusCode pr = 200.

(** ** A concrete environment, used for the worked cases *)

Module Sample.

Definition identity : jsval :=
  JObj [("userId", JStr "42"); ("email", JStr "ann@example.org")].

(** A JSON library cut down to atoms: objects, arrays and strings are
    written without their content and are not read back. *)
Definition stringify (v : jsval) : string :=
  match v with
  | JUndefined | JNull => "null"
  | JBool true => "true"
  | JBool false => "false"
  | JNum n => print_int n
  | JStr _ => "?"
  | JArr _ => "[]"
  | JObj _ => "{}"
  end.

Definition parse (text : string) : option jsval :=
  if String.eqb text "null" then Some JNull
  else if String.eqb text "true" then Some (JBool true)
  else if String.eqb text "false" then Some (JBool false)
  else JNum <$> parse_int text.

(** The token ["good"] is the only valid one; the auth service answers 200
    to a login and 201 to a registration, the file service 201 to an upload
    and 200 to the rest. *)
Definition E : env :=
  {| jwt_verify := fun _ token =>
       if String.eqb token "good" then Some identity else None;
     JSON_stringify := stringify;
     JSON_parse := parse;
     toISOString := print_int;
     upstream := fun _ req =>
       Some (ProxyRes
               (if String.eqb (req_method req) "POST"
                   && negb (includes "/login" (req_path req))
                then 201 else 200)
               "[]") |}.

Definition client : string := "203.0.113.9".

Definition call_at (t : Z) (ip method url path : string)
    (authorization : option string) (body : jsval) : request :=
  {| req_now := t; req_ip := ip; req_method := method;
     req_originalUrl := url; req_path := path;
     req_authorization := authorization; req_body := body;
     req_file := JUndefined; req_params := JObj []; req_user := JUndefined |}.

(** [GET /api/files] with the valid token. *)
Definition list_files (t : Z) : request :=
  call_at t client "GET" "/api/files" "/" (Some "Bearer good") (JObj []).

(** The same with a token that [jwt.verify] refuses. *)
Definition stale_files (t : Z) : request :=
  call_at t client "GET" "/api/files" "/" (Some "Bearer expired") (JObj []).

(** A request of another client. *)
Definition ping (t : Z) : request :=
  call_at t "198.51.100.4" "GET" "/health" "/health" None (JObj []).

Definition login (t : Z) : request :=
  call_at t client "POST" "/api/auth/login" "/login" None
    (JObj [("email", JStr "ann@example.org"); ("password", JStr "secret")]).

Definition register (t : Z) : request :=
  call_at t client "POST" "/api/auth/register" "/register" None
    (JObj [("username", JStr "ann"); ("email", JStr "ann@example.org")]).

Definition upload (t : Z) : request :=
  set_user identity
    (call_at t client "POST" "/api/files/upload" "/upload" (Some "Bearer good")
       (JObj [("filename", JStr "notes.txt")])).

Definition remove (t : Z) : request :=
  set_user identity
    (call_at t client "DELETE" "/api/files/7" "/7" (Some "Bearer good") (JObj [])).

Definition quiet : world :=
  {| redis_db := ∅; redis_isOpen := true; redis_faults := [];
     slow_hits := ∅; kafka_log := []; kafka_faults := []; calls := [] |}.

(** The store answers the two lookups of [verifyToken] and rejects the
    write that follows. *)
Definition write_fails : world := with_redis_faults [false; false; true] quiet.

(** The store rejects the next command. *)
Definition store_down : world := with_redis_faults [true] quiet.

Definition revoked : world :=
  with_db <["token:good" := Entry "blacklisted" None]> quiet.

Definition identity_cached : world :=
  with_db <["user:42" := Entry "{}" (Some 3600000)]> quiet.

(** The world after [verifyToken] has let [list_files] through, with an
    entry for it in the response cache. *)
Definition response_cached : world :=
  with_db <["cache:/api/files:42" := Entry "true" (Some 300000)]> identity_cached.

Definition is_backend_call (c : call) : bool :=
  match c with
  | CallBackend _ _ => true
  | CallVerify _ => false
  end.

End Sample.

(** ** Notions for the further properties *)

(** Whether the character [c] occurs in [s]. *)
Fixpoint occurs (c : ascii) (s : string) : bool :=
  match s with
  | EmptyString => false
  | String x rest => Ascii.eqb x c || occurs c rest
  end.

(** The last part of the cache key: the subject of the identity, or
    ["anonymous"]. *)
Definition subject_text (req : request) : string :=
  ToString (or_else (field "userId" (req_user req)) (JStr "anonymous")).

(** The hit counts of a run of [increment]s on one key, at the given
    times. *)
Fixpoint increments (ts : list Z) (key : string) (w : world) : list Z * world :=
  match ts with
  | [] => ([], w)
  | t :: rest =>
      match RedisStore.increment t key w with
      | (Ok n, w1) => let (ns, w2) := increments rest key w1 in (n :: ns, w2)
      | (Thrown, w1) => ([], w1)
      end
  end.

(** The command leaves the entry of key [a] as it is. *)
Definition keeps_key {A} (a : string) (m : M A) : Prop :=
  ∀ w, redis_db (m w).2 !! a = redis_db w !! a.

(** Worlds and requests for the worked cases of the further properties:
    a store that has counted 7 requests of the sample client in a window
    that ends at 900000 ms, a store whose key for that client holds a text
    that is no number, a store that answers INCR and rejects EXPIRE, and
    requests with other Authorization headers. *)
Definition counted_seven : world :=
  with_db <[Sample.client := Entry "7" (Some 900000)]> Sample.quiet.

Definition not_a_counter : world :=
  with_db <[Sample.client := Entry "blacklisted" None]> Sample.quiet.

Definition expire_fails : world := with_redis_faults [false; true] Sample.quiet.

Definition basic_files (t : Z) : request :=
  Sample.call_at t Sample.client "GET" "/api/files" "/" (Some "Basic good extra")
    (JObj []).

Definition one_word_files (t : Z) : request :=
  Sample.call_at t Sample.client "GET" "/api/files" "/" (Some "Bearer") (JObj []).

Definition two_spaces_files (t : Z) : request :=
  Sample.call_at t Sample.client "GET" "/api/files" "/" (Some "Bearer  good")
    (JObj []).

(** A response cache that holds a text that is no JSON under the key of the
    sample identity. *)
Definition not_json_cached : world :=
  with_db <["cache:/api/files:42" := Entry "<html>" (Some 300000)]> Sample.quiet.








(** [JSON.parse] skips white space before the value. *)
Fixpoint skip_spaces (text : string) : string :=
  match text with
  | String c rest => if Ascii.eqb c " " then skip_spaces rest else text
  | EmptyString => EmptyString
  end.

(** The sample environment with a [JSON.parse] that does so. *)
Definition lenient : env :=
  {| jwt_verify := jwt_verify Sample.E;
     JSON_stringify := JSON_stringify Sample.E;
     JSON_parse := fun text => JSON_parse Sample.E (skip_spaces text);
     toISOString := toISOString Sample.E;
     upstream := upstream Sample.E |}.

(** A response cache whose entry for the sample identity is the JSON text
    of [true] with a space in front. *)
Definition spaced_cached : world :=
  with_db <["cache:/api/files:42" := Entry " true" (Some 300000)]> Sample.quiet.

(** Two requests of the sample identity for the same path under the mount,
    one with a trailing slash in the URL, and one with a query string. *)
Definition files_plain : request :=
  set_user Sample.identity
    (Sample.call_at 0 Sample.client "GET" "/api/files" "/" (Some "Bearer good")
       (JObj [])).

Definition files_slash : request :=
  set_user Sample.identity
    (Sample.call_at 0 Sample.client "GET" "/api/files/" "/" (Some "Bearer good")
       (JObj [])).

Definition files_query : request :=
  set_user Sample.identity
    (Sample.call_at 0 Sample.client "GET" "/api/files?page=2" "/"
       (Some "Bearer good") (JObj [])).

(** The same request for the identity whose [userId] is the value given. *)
Definition files_as (userId : jsval) : request :=
  set_user (JObj [("userId", userId)])
    (Sample.call_at 0 Sample.client "GET" "/api/files" "/" (Some "Bearer good")
       (JObj [])).

(** * Properties *)

(** ** The JavaScript operations on concrete values *)

Example split_bearer : split " " "Bearer abc.def" = ["Bearer"; "abc.def"].
Proof. reflexivity. Qed.

Example split_two_spaces : split " " "Bearer  abc" = ["Bearer"; ""; "abc"].
Proof. reflexivity. Qed.

Example split_no_space : split " " "abc" !! 1%nat = None.
Proof. reflexivity. Qed.

Example includes_login :
  includes "/login" "/login" = true ∧ includes "/login" "/logout" = false ∧
  includes "/upload" "/v2/upload/x" = true.
Proof. repeat split. Qed.

Example template_literal :
  ToString (JArr [JNum 1; JNull; JStr "a"]) = "1,,a" ∧
  ToString JUndefined = "undefined" ∧ ToString (JObj []) = "[object Object]".
Proof. repeat split. Qed.

Example assign_keeps_place :
  assign "timestamp" (JStr "new") [("type", JStr "T"); ("timestamp", JStr "old")]
  = [("type", JStr "T"); ("timestamp", JStr "new")].
Proof. reflexivity. Qed.

(** ** Integers as Redis prints them *)

Example print_parse_int :
  print_int 100 = "100" ∧ parse_int "-5" = Some (-5) ∧
  parse_int "007" = None ∧ parse_int "" = None ∧ parse_int "blacklisted" = None.
Proof. repeat split. Qed.

Lemma parse_print_int (n : Z) : parse_int (print_int n) = Some n.
Proof.
  unfold parse_int, print_int.
  rewrite NilZero.isi.
  - rewrite DecimalZ.of_to. now rewrite String.eqb_refl.
  - destruct n; simpl; try discriminate.
    intros [= H]. now apply DecimalPos.Unsigned.to_uint_nonnil in H.
  - destruct n; simpl; try discriminate.
    intros [= H]. now apply DecimalPos.Unsigned.to_uint_nonnil in H.
Qed.

(** ** The rate counter of one client address *)

Lemma hits_cons_eq a r rs : req_ip r = a → hits a (r :: rs) = 1 + hits a rs.
Proof.
  intros H. unfold hits. rewrite filter_cons_True by done. simpl length. lia.
Qed.

Lemma hits_cons_ne a r rs : req_ip r ≠ a → hits a (r :: rs) = hits a rs.
Proof. intros H. unfold hits. now rewrite filter_cons_False. Qed.

Lemma hits_nonneg a rs : 0 <= hits a rs.
Proof. unfold hits. lia. Qed.

Lemma increment_counting a k d t w :
  store_counting a k d w → 1 <= k → t < d →
  ∃ w', RedisStore.increment t a w = (Ok (k + 1), w') ∧
        store_counting a (k + 1) d w' ∧ slow_hits w' = slow_hits w.
Proof.
  intros (Hdb & Hf) Hk Ht.
  unfold RedisStore.increment, try_catch, bind, Redis.incr, Redis.add, Redis.command.
  rewrite Hf. unfold Redis.find. rewrite Hdb. unfold Redis.live. simpl.
  assert ((t <? d) = true) as -> by lia.
  cbn [ent_value ent_expireAt]. rewrite parse_print_int.
  assert ((k + 1 =? 1) = false) as -> by lia.
  simpl. eexists. split; [reflexivity|]. unfold store_counting. simpl.
  rewrite lookup_insert_eq. auto.
Qed.

Lemma increment_fresh a t w :
  fresh_store a t w →
  ∃ w', RedisStore.increment t a w = (Ok 1, w') ∧
        store_counting a 1 (t + window) w' ∧ slow_hits w' = slow_hits w.
Proof.
  intros (Hdb & Hf).
  unfold RedisStore.increment, try_catch, bind, Redis.incr, Redis.add, Redis.command.
  rewrite Hf, Hdb. simpl. unfold Redis.expire, Redis.command. simpl. rewrite Hf.
  unfold Redis.find. simpl. rewrite lookup_insert_eq. simpl.
  eexists. split; [reflexivity|]. unfold store_counting. simpl.
  rewrite lookup_insert_eq. auto.
Qed.

(** A request of another address leaves the counter of [a] alone. *)
Lemma increment_other a b t w :
  b ≠ a → redis_faults w = [] →
  ∃ n w', RedisStore.increment t b w = (Ok n, w') ∧
          redis_db w' !! a = redis_db w !! a ∧
          slow_hits w' = slow_hits w ∧ redis_faults w' = [].
Proof.
  intros Hne Hf.
  unfold RedisStore.increment, try_catch, bind, Redis.incr, Redis.add, Redis.command.
  rewrite Hf.
  destruct (Redis.find t b (redis_db w)) as [e|] eqn:Hfind.
  - destruct (parse_int (ent_value e)) as [n|]; simpl.
    + destruct (n + 1 =? 1) eqn:Hn; simpl.
      * unfold Redis.expire, Redis.command, Redis.find. simpl. rewrite Hf.
        rewrite lookup_insert_eq. simpl.
        destruct (Redis.live t _); simpl;
          do 2 eexists; (split; [reflexivity|]); simpl;
          rewrite ?lookup_insert_ne by done; auto.
      * do 2 eexists. split; [reflexivity|]. simpl.
        rewrite lookup_insert_ne by done. auto.
    + do 2 eexists. split; [reflexivity|]. auto.
  - simpl. unfold Redis.expire, Redis.command, Redis.find. simpl. rewrite Hf.
    rewrite lookup_insert_eq. simpl.
    do 2 eexists. split; [reflexivity|]. simpl.
    rewrite !lookup_insert_ne by done. auto.
Qed.

(** The throttle never touches the store. *)
Lemma speedLimiter_run r w :
  ∃ ms w', speedLimiter r w = (Ok ms, w') ∧
           redis_db w' = redis_db w ∧ redis_faults w' = redis_faults w.
Proof. unfold speedLimiter, slowDown. do 2 eexists. split; [reflexivity|]. auto. Qed.


(** *** One request, the store alone *)

Lemma rate_check_limited r w n w1 :
  RedisStore.increment (req_now r) (req_ip r) w = (Ok n, w1) →
  ∃ v w', rate_check r w = (Ok v, w') ∧ within_hard_cap n v ∧
          redis_db w' = redis_db w1 ∧ redis_faults w' = redis_faults w1.
Proof.
  intros Hinc.
  unfold rate_check, limiter, rateLimit, bind. cbn [store_increment max].
  rewrite Hinc. destruct (100 <? n) eqn:H100; cbn [ret].
  - do 2 eexists. split; [reflexivity|]. split; [|auto].
    split; [lia | reflexivity].
  - destruct (speedLimiter_run r w1) as (ms & w' & -> & Hdb & Hf).
    do 2 eexists. split; [reflexivity|]. split; [|auto].
    split; [|lia]. intros _. destruct (ms =? 0); eauto.
Qed.

Lemma rate_check_store_counting a d k r w :
  store_counting a k d w → 1 <= k → req_ip r = a → req_now r < d →
  ∃ v w', rate_check r w = (Ok v, w') ∧ within_hard_cap (k + 1) v ∧
          store_counting a (k + 1) d w'.
Proof.
  intros Hc Hk Hip Ht.
  destruct (increment_counting a k d (req_now r) w Hc Hk Ht)
    as (w1 & Hinc & (Hdb1 & Hf1) & _).
  rewrite <- Hip in Hinc.
  destruct (rate_check_limited r w _ w1 Hinc) as (v & w' & Hrc & Hcap & Hdb & Hf).
  exists v, w'. repeat split; try apply Hcap; try assumption; congruence.
Qed.

Lemma rate_check_store_fresh a t r w :
  fresh_store a t w → req_ip r = a → req_now r = t →
  ∃ v w', rate_check r w = (Ok v, w') ∧ within_hard_cap 1 v ∧
          store_counting a 1 (t + window) w'.
Proof.
  intros Hfr Hip Ht.
  destruct (increment_fresh a t w Hfr) as (w1 & Hinc & (Hdb1 & Hf1) & _).
  rewrite <- Hip, <- Ht in Hinc.
  destruct (rate_check_limited r w _ w1 Hinc) as (v & w' & Hrc & Hcap & Hdb & Hf).
  exists v, w'. repeat split; try apply Hcap; try assumption; congruence.
Qed.

Lemma rate_check_store_other a d k r w :
  store_counting a k d w → req_ip r ≠ a →
  ∃ v w', rate_check r w = (Ok v, w') ∧ store_counting a k d w'.
Proof.
  intros (Hdb & Hf) Hip.
  destruct (increment_other a (req_ip r) (req_now r) w Hip Hf)
    as (n & w1 & Hinc & Hdb1 & _ & Hf1).
  destruct (rate_check_limited r w _ w1 Hinc) as (v & w' & Hrc & _ & Hdb' & Hf').
  exists v, w'. repeat split; try assumption; congruence.
Qed.

(** *** One request, store and throttle in step *)




(** *** A sequence of requests *)

Section Window.

Variable a : string.
Variable deadline : Z.

(** What is known of the world after [k] requests of [a], and what is to be
    shown of the verdict of the [n]-th. *)
Variable Inv : Z → world → Prop.
Variable P : Z → verdict → Prop.

Hypothesis step_own : ∀ k r w,
  Inv k w → 1 <= k → req_ip r = a → req_now r < deadline →
  ∃ v w', rate_check r w = (Ok v, w') ∧ P (k + 1) v ∧ Inv (k + 1) w'.

Hypothesis step_other : ∀ k r w,
  Inv k w → req_ip r ≠ a →
  ∃ v w', rate_check r w = (Ok v, w') ∧ Inv k w'.

Lemma serve_invariant rs : ∀ w k,
  Inv k w → 1 <= k →
  (∀ r, r ∈ rs → req_ip r = a → req_now r < deadline) →
  (∀ i r, rs !! i = Some r → req_ip r = a →
          ∃ v, (serve rs w).1 !! i = Some v ∧ P (k + rank a rs i) v) ∧
  Inv (k + hits a rs) (serve rs w).2.
Proof.
  induction rs as [|r0 rs IH]; intros w k Hc Hk Hwin.
  - split.
    + intros i r Hl. now rewrite lookup_nil in Hl.
    + cbn. unfold hits. cbn. now rewrite Z.add_0_r.
  - assert (Hwin' : ∀ r, r ∈ rs → req_ip r = a → req_now r < deadline).
    { intros r Hr. apply Hwin. now right. }
    cbn [serve].
    destruct (decide (req_ip r0 = a)) as [Hip|Hip].
    + destruct (step_own k r0 w Hc Hk Hip) as (v0 & w1 & Hrc & Hv0 & Hc1).
      { apply Hwin; [left | done]. }
      rewrite Hrc.
      destruct (IH w1 (k + 1) Hc1 ltac:(lia) Hwin') as [IHv IHc].
      destruct (serve rs w1) as [vs w2]. cbn [fst snd] in *.
      split.
      * intros [|i] r Hl Hr; cbn in Hl |- *.
        -- exists v0. split; [reflexivity|].
           unfold rank. cbn [take]. rewrite hits_cons_eq by done.
           unfold hits. cbn. exact Hv0.
        -- destruct (IHv i r Hl Hr) as (v & Hv & HP). exists v. split; [exact Hv|].
           unfold rank.
           change (take (S (S i)) (r0 :: rs)) with (r0 :: take (S i) rs).
           rewrite hits_cons_eq by done.
           now replace (k + (1 + hits a (take (S i) rs)))
             with (k + 1 + rank a rs i) by (unfold rank; lia).
      * rewrite hits_cons_eq by done.
        now replace (k + (1 + hits a rs)) with (k + 1 + hits a rs) by lia.
    + destruct (step_other k r0 w Hc Hip) as (v0 & w1 & Hrc & Hc1).
      rewrite Hrc.
      destruct (IH w1 k Hc1 Hk Hwin') as [IHv IHc].
      destruct (serve rs w1) as [vs w2]. cbn [fst snd] in *.
      split.
      * intros [|i] r Hl Hr; cbn in Hl |- *.
        -- congruence.
        -- destruct (IHv i r Hl Hr) as (v & Hv & HP). exists v. split; [exact Hv|].
           unfold rank.
           change (take (S (S i)) (r0 :: rs)) with (r0 :: take (S i) rs).
           now rewrite hits_cons_ne by done.
      * now rewrite hits_cons_ne by done.
Qed.

(** A window of [a], from the request that opens it. *)
Lemma serve_from_first first rest w :
  (∃ v w', rate_check first w = (Ok v, w') ∧ P 1 v ∧ Inv 1 w') →
  req_ip first = a →
  (∀ r, r ∈ rest → req_ip r = a → req_now r < deadline) →
  (∀ i r, (first :: rest) !! i = Some r → req_ip r = a →
          ∃ v, (serve (first :: rest) w).1 !! i = Some v ∧
               P (rank a (first :: rest) i) v) ∧
  Inv (hits a (first :: rest)) (serve (first :: rest) w).2.
Proof.
  intros (v0 & w1 & Hrc & Hv0 & Hc1) Hip Hwin. cbn [serve]. rewrite Hrc.
  destruct (serve_invariant rest w1 1 Hc1 ltac:(lia) Hwin) as [IHv IHc].
  destruct (serve rest w1) as [vs w2]. cbn [fst snd] in *.
  split.
  - intros [|i] r Hl Hr; cbn in Hl |- *.
    + exists v0. split; [reflexivity|].
      unfold rank. cbn [take]. rewrite hits_cons_eq by done. exact Hv0.
    + destruct (IHv i r Hl Hr) as (v & Hv & HP). exists v. split; [exact Hv|].
      unfold rank.
      change (take (S (S i)) (first :: rest)) with (first :: take (S i) rest).
      now rewrite hits_cons_eq by done.
  - now rewrite hits_cons_eq by done.
Qed.

End Window.

(** C1 — hard cap.  In a window of client address [a], opened by [first] at
    time [t0] while the store answers, whatever other clients do in between
    and whatever the throttle has counted: the request of [a] of rank at
    most 100 gets Allow or Delay, the 101st and every later one gets Reject,
    which is the 429 answer, and the counter in the store ends at the number
    of all requests of [a], the rejected ones included. *)
Theorem rate_limit_hard_cap
    (a : string) (t0 : Z) (first : request) (rest : list request) (w : world) :
  fresh_store a t0 w →
  req_ip first = a → req_now first = t0 →
  (∀ r, r ∈ rest → req_ip r = a → t0 <= req_now r < t0 + window) →
  let rs := first :: rest in
  (∀ i r, rs !! i = Some r → req_ip r = a →
     ∃ v, (serve rs w).1 !! i = Some v ∧
          (rank a rs i <= 100 → v = Allow ∨ ∃ ms, v = Delay ms) ∧
          (100 < rank a rs i → v = Reject too_many)) ∧
  res_status too_many = 429 ∧
  redis_db (serve rs w).2 !! a
    = Some (Entry (print_int (hits a rs)) (Some (t0 + window))).
Proof.
  intros Hfr Hip Ht Hwin rs.
  destruct (serve_from_first a (t0 + window) (λ k, store_counting a k (t0 + window))
              within_hard_cap
              (rate_check_store_counting a (t0 + window))
              (rate_check_store_other a (t0 + window))
              first rest w) as [Hv Hc].
  { apply (rate_check_store_fresh a t0 first w Hfr Hip Ht). }
  { exact Hip. }
  { intros r Hr Ha. now apply Hwin. }
  fold rs in Hv, Hc. split; [|split; [reflexivity | apply Hc]].
  intros i r Hl Hr. destruct (Hv i r Hl Hr) as (v & Hlook & Hcap).
  exists v. split; [exact Hlook | exact Hcap].
Qed.


(** ** Failures of the counter store *)










(** ** Token validation *)

(** [res.json] always sends, and never calls out. *)
Lemma res_json_run (E : env) (res : res_obj) (t status : Z) (data : jsval) (w : world) :
  ∃ w', res_json E res t status data w = (Ok (Response status (SentJson data)), w') ∧
        calls w' = calls w ∧ kafka_log w' = kafka_log w ∧
        (json_wrapper res = None → w' = w).
Proof.
  unfold res_json. destruct (json_wrapper res) as [k|].
  - unfold detached, try_catch, bind, Redis.setEx, Redis.command, ret.
    destruct (redis_faults w) as [|[] fs]; cbn; eexists;
      (split; [reflexivity|]); cbn; (repeat split; try done).
  - eexists. split; [reflexivity|]. auto.
Qed.

Ltac run_res_json :=
  match goal with
  | |- context [res_json ?E ?r ?t ?s ?d ?w] =>
      let w' := fresh "w'" in
      let Hrun := fresh "Hrun" in
      let Hcalls := fresh "Hcalls" in
      let Hlog := fresh "Hlog" in
      let Hsame := fresh "Hsame" in
      destruct (res_json_run E r t s d w) as (w' & Hrun & Hcalls & Hlog & Hsame);
      rewrite Hrun; cbn [ret]
  end.

Ltac world_simpl :=
  cbn [redis_db redis_faults calls kafka_log kafka_faults slow_hits
       with_redis_faults with_call with_db with_kafka ret fst snd].

Section Validation.

Variable E : env.


(** C3 — revocation.  A request whose bearer token has a live revocation
    record is answered 401 and [jwt.verify] is not called, whatever
    [jwt.verify] would say, whatever the identity cache holds and whether or
    not the store answers; when the store answers the lookup the answer is
    the "revoked" one. *)
Theorem revoked_token_rejected
    (req : request) (res : res_obj) (w : world) (tok : string) (e : entry) :
  bearer req = Some tok → tok ≠ "" →
  Redis.find (req_now req) ("token:" +:+ tok) (redis_db w) = Some e →
  ent_value e = "blacklisted" →
  ∃ r w', verifyToken E req res w = (Ok (Done r), w') ∧
          res_status r = 401 ∧
          calls w' = calls w ∧
          (head (redis_faults w) ≠ Some true →
           r = Response 401 (SentJson (error_body "Token has been revoked"))).
Proof.
  intros Hb Hne Hfind Hval.
  unfold verifyToken, try_catch, bind. rewrite Hb.
  cbn [falsy_text default from_option id].
  destruct (String.eqb_spec tok "") as [|_]; [done|].
  unfold Redis.get, Redis.command.
  destruct (redis_faults w) as [|[] fs] eqn:Hf;
    cbn [redis_db with_redis_faults]; rewrite ?Hfind;
    cbn [fmap option_fmap option_map];
    rewrite ?Hval; rewrite ?bool_decide_eq_true_2 by done;
    run_res_json; do 2 eexists; (split; [reflexivity|]);
    (split; [reflexivity|]); (split; [by rewrite Hcalls|]); cbn; try done.
Qed.



Lemma proceeds_only_verified (req : request) (res : res_obj) (w : world) req' res' w' :
  verifyToken E req res w = (Ok (Next req' res'), w') →
  ∃ tok decoded, bearer req = Some tok ∧
                 jwt_verify E (req_now req) tok = Some decoded ∧
                 req' = set_user decoded req ∧ res' = res ∧
                 calls w' = (calls w ++ [CallVerify tok])%list.
Proof.
  unfold verifyToken, try_catch, bind.
  destruct (bearer req) as [tok|] eqn:Hb; cbn [falsy_text default from_option id].
  2: { run_res_json. discriminate. }
  destruct (String.eqb tok "").
  { run_res_json. discriminate. }
  unfold Redis.get, Redis.setEx, Redis.command, jwt_verify_call.
  destruct (jwt_verify E (req_now req) tok) as [decoded|] eqn:Hjwt.
  all: destruct (redis_faults w) as [|b1 [|b2 [|b3 fs]]] eqn:Hf;
    try destruct b1; try destruct b2; try destruct b3; world_simpl;
    try (run_res_json; discriminate).
  all: destruct (bool_decide _); try (run_res_json; discriminate);
    world_simpl; rewrite ?Hf; world_simpl; try (run_res_json; discriminate).
  all: destruct (falsy_text _); world_simpl; rewrite ?Hf; world_simpl;
    try (run_res_json; discriminate).
  all: intros [= <- <- <-]; exists tok, decoded; world_simpl; auto.
Qed.


Lemma same_but_identity_cache_refl w : same_but_identity_cache w w.
Proof. split; reflexivity. Qed.





End Validation.

(** ** Response cache, proxies, events and health *)

Lemma length_append (s t : string) :
  String.length (s +:+ t) = (String.length s + String.length t)%nat.
Proof.
  induction s as [|c s IH]; [reflexivity|].
  change (String c s +:+ t) with (String c (s +:+ t)).
  cbn [String.length]. now rewrite IH.
Qed.

Lemma append_inv_tail (t : string) : ∀ s1 s2, s1 +:+ t = s2 +:+ t → s1 = s2.
Proof.
  induction s1 as [|x s1 IH]; intros [|y s2] Heq; [reflexivity| | |].
  - apply (f_equal String.length) in Heq. rewrite !length_append in Heq.
    cbn [String.length] in Heq. lia.
  - apply (f_equal String.length) in Heq. rewrite !length_append in Heq.
    cbn [String.length] in Heq. lia.
  - change (String x s1 +:+ t) with (String x (s1 +:+ t)) in Heq.
    change (String y s2 +:+ t) with (String y (s2 +:+ t)) in Heq.
    injection Heq as -> Heq. now rewrite (IH s2 Heq).
Qed.

Section Pipeline.

Variable E : env.

Lemma falsy_text_Some (s : string) : s ≠ "" → falsy_text (Some s) = false.
Proof. intros H. cbn. now destruct (String.eqb_spec s ""). Qed.

Lemma cache_hit (req : request) (res : res_obj) (w : world) (e : entry) (data : jsval) :
  req_method req = "GET" →
  Redis.find (req_now req) (cacheKey_of req) (redis_db w) = Some e →
  ent_value e ≠ "" →
  JSON_parse E (ent_value e) = Some data →
  head (redis_faults w) ≠ Some true →
  json_wrapper res = None →
  ∃ w', cacheMiddleware E req res w = (Ok (Done (Response 200 (SentJson data))), w') ∧
        calls w' = calls w ∧ redis_db w' = redis_db w.
Proof.
  intros Hget Hfind Hne Hparse Hf Hres.
  unfold cacheMiddleware. rewrite Hget. cbn [String.eqb Ascii.eqb Bool.eqb negb].
  unfold try_catch, bind, Redis.get, Redis.command.
  destruct (redis_faults w) as [|[] fs]; [|done|];
    world_simpl; rewrite Hfind; cbn [fmap option_fmap option_map];
    rewrite (falsy_text_Some _ Hne); cbn [default from_option id];
    unfold JSON_parse_call; rewrite Hparse; cbn [ret];
    run_res_json; rewrite (Hsame Hres); eexists; (split; [reflexivity|]);
    split; reflexivity.
Qed.

Lemma cache_hit_on_route (req0 req : request) (res : res_obj) (w0 w : world)
    (e : entry) (data : jsval) :
  verifyToken E req0 (ResObj None) w0 = (Ok (Next req res), w) →
  req_method req = "GET" →
  Redis.find (req_now req) (cacheKey_of req) (redis_db w) = Some e →
  ent_value e ≠ "" →
  JSON_parse E (ent_value e) = Some data →
  head (redis_faults w) ≠ Some true →
  ∃ w', api_files E req0 w0 = (Ok (Response 200 (SentJson data)), w') ∧
        calls w' = calls w ∧ redis_db w' = redis_db w.
Proof.
  intros Hauth Hget Hfind Hne Hparse Hf.
  destruct (proceeds_only_verified E req0 _ w0 req res w Hauth)
    as (tok & decoded & _ & _ & _ & -> & _).
  destruct (cache_hit req (ResObj None) w e data) as (w' & Hhit & Hc & Hdb);
    try done.
  exists w'. unfold api_files, bind. rewrite Hauth, Hhit. auto.
Qed.

(** C7 — the read path of the response cache.  A request that is not a GET
    goes on untouched and no command is sent to the store.  The key is
    ["cache:"], the original URL as it was received, [":"], and the subject
    of the identity, or ["anonymous"] when the request has no identity: two
    requests of one subject share a key only when their original URLs are
    the same text.  On a hit with an entry that [JSON.parse] reads as [data]
    the answer is [data] with status 200; the middleware answers instead of
    calling [next()], on the route too, no call to a backend is added and
    the store is left as it is.  When the entry is the text that
    [JSON.stringify] writes for a value that [JSON.parse] reads back, the
    body text that is sent is the entry itself. *)
Theorem response_cache_read_path (req : request) (res : res_obj) (w : world) :
  (req_method req ≠ "GET" →
     cacheMiddleware E req res w = (Ok (Next req res), w)) ∧
  (req_user req = JUndefined →
     cacheKey_of req = "cache:" +:+ req_originalUrl req +:+ ":anonymous") ∧
  (∀ sub, field "userId" (req_user req) = JStr sub → sub ≠ "" →
     cacheKey_of req = "cache:" +:+ req_originalUrl req +:+ ":" +:+ sub) ∧
  (∀ req2, subject_text req2 = subject_text req →
     cacheKey_of req2 = cacheKey_of req →
     req_originalUrl req2 = req_originalUrl req) ∧
  (∀ e data,
     req_method req = "GET" →
     Redis.find (req_now req) (cacheKey_of req) (redis_db w) = Some e →
     ent_value e ≠ "" →
     JSON_parse E (ent_value e) = Some data →
     head (redis_faults w) ≠ Some true →
     (json_wrapper res = None →
      ∃ w', cacheMiddleware E req res w
              = (Ok (Done (Response 200 (SentJson data))), w') ∧
            calls w' = calls w ∧ redis_db w' = redis_db w) ∧
     (∀ req0 w0,
        verifyToken E req0 (ResObj None) w0 = (Ok (Next req res), w) →
        ∃ w', api_files E req0 w0 = (Ok (Response 200 (SentJson data)), w') ∧
              calls w' = calls w ∧ redis_db w' = redis_db w) ∧
     (∀ v, ent_value e = JSON_stringify E v →
           JSON_parse E (JSON_stringify E v) = Some v →
           data = v ∧ wire E (SentJson data) = ent_value e)).
Proof.
  split; [|split; [|split; [|split]]].
  - intros Hm. unfold cacheMiddleware.
    now destruct (String.eqb_spec (req_method req) "GET").
  - intros Hu. unfold cacheKey_of. now rewrite Hu.
  - intros sub Hsub Hne. unfold cacheKey_of, or_else. rewrite Hsub.
    cbn [truthy]. now destruct (String.eqb_spec sub "").
  - intros req2 Hsub Heq. unfold cacheKey_of in Heq.
    fold (subject_text req2) in Heq. fold (subject_text req) in Heq.
    rewrite Hsub in Heq. apply String.app_inj in Heq.
    now apply append_inv_tail in Heq.
  - intros e data Hget Hfind Hne Hparse Hf. split; [|split].
    + intros Hres.
      destruct (cache_hit req res w e data) as (w' & Hhit & Hc & Hdb); try done.
      exists w'. auto.
    + intros req0 w0 Hauth.
      destruct (cache_hit_on_route req0 req res w0 w e data)
        as (w' & Hhit & Hc & Hdb); try done.
      exists w'. auto.
    + intros v Hv Hround. rewrite Hv in Hparse. rewrite Hround in Hparse.
      injection Hparse as <-. split; [reflexivity|].
      unfold wire. now rewrite Hv.
Qed.

Lemma ret_leaves_store {A} (a : A) : leaves_store (ret a).
Proof. now intros w. Qed.

Lemma bind_leaves_store {A B} (m : M A) (k : A → M B) :
  leaves_store m → (∀ a, leaves_store (k a)) → leaves_store (bind m k).
Proof.
  intros Hm Hk w. unfold bind. specialize (Hm w).
  destruct (m w) as [[a|] w1]; cbn [snd] in *; [|done].
  now rewrite Hk.
Qed.

Lemma try_catch_leaves_store {A} (m h : M A) :
  leaves_store m → leaves_store h → leaves_store (try_catch m h).
Proof.
  intros Hm Hh w. unfold try_catch. specialize (Hm w).
  destruct (m w) as [[a|] w1]; cbn [snd] in *; [done|].
  now rewrite Hh.
Qed.

Lemma publishEvent_leaves_store t topic event :
  leaves_store (publishEvent E t topic event).
Proof.
  apply try_catch_leaves_store; [|apply ret_leaves_store].
  intros w. unfold producer_send. now destruct (kafka_faults w) as [|[] fs].
Qed.

Lemma setImmediate_leaves_store (task : M unit) :
  leaves_store task → leaves_store (setImmediate task).
Proof.
  intros H. apply try_catch_leaves_store; [done | apply ret_leaves_store].
Qed.

Lemma fileProxy_leaves_store (req : request) (res : res_obj) :
  leaves_store (fileProxy E req res).
Proof.
  intros w. unfold fileProxy, createProxyMiddleware.
  destruct (upstream E FILE_SERVICE_URL req) as [pr|]; [|reflexivity].
  match goal with |- redis_db (?m ?w0).2 = _ =>
    change (redis_db w) with (redis_db w0); generalize w0
  end.
  apply bind_leaves_store; [|intros; apply ret_leaves_store].
  apply try_catch_leaves_store; [|apply ret_leaves_store].
  unfold fileProxy_onProxyRes. cbv zeta.
  apply bind_leaves_store; [|intros _];
    (destruct (_ && _);
     [apply setImmediate_leaves_store, publishEvent_leaves_store
     |apply ret_leaves_store]).
Qed.

Lemma publish_run t topic event w :
  head (kafka_faults w) ≠ Some true →
  ∃ w', setImmediate (publishEvent E t topic event) w = (Ok tt, w') ∧
        kafka_log w' = (kafka_log w ++ [published E t topic event])%list.
Proof.
  intros Hf.
  unfold setImmediate, detached, try_catch, publishEvent, try_catch, producer_send.
  destruct (kafka_faults w) as [|[] fs]; [|done|]; eexists; split; reflexivity.
Qed.

(** The log after a proxy has run its hook, given what the hook does. *)
Lemma proxy_log target hook req res pr w (sent : list message) :
  upstream E target req = Some pr →
  (∃ w', hook pr req (with_call (CallBackend target req) w) = (Ok tt, w') ∧
         kafka_log w' = (kafka_log w ++ sent)%list) →
  kafka_log (createProxyMiddleware E target hook req res w).2
  = (kafka_log w ++ sent)%list.
Proof.
  intros Hup (w' & Hrun & Hlog).
  unfold createProxyMiddleware. rewrite Hup.
  unfold bind, detached, try_catch. now rewrite Hrun.
Qed.

Lemma pattern_test (m : string) (sub : string) (code : Z) req pr :
  (String.eqb (req_method req) m && includes sub (req_path req)
   && (statusCode pr =? code)) = true
  ↔ req_method req = m ∧ includes sub (req_path req) = true ∧ statusCode pr = code.
Proof.
  rewrite !andb_true_iff, String.eqb_eq, Z.eqb_eq. tauto.
Qed.

Lemma delete_test req pr :
  (String.eqb (req_method req) "DELETE" && (statusCode pr =? 200)) = true
  ↔ delete_pattern req pr.
Proof.
  unfold delete_pattern. rewrite andb_true_iff, String.eqb_eq, Z.eqb_eq. tauto.
Qed.

Lemma auth_hook_run req pr w :
  head (kafka_faults w) ≠ Some true →
  ∃ w', authProxy_onProxyRes E pr req w = (Ok tt, w') ∧
        kafka_log w' =
        (kafka_log w ++
         (if String.eqb (req_method req) "POST" && includes "/login" (req_path req)
             && (statusCode pr =? 200)
          then [published E (req_now req) "user-events"
                  [("type", JStr "USER_LOGIN_ATTEMPT");
                   ("email", field "email" (req_body req));
                   ("timestamp", JStr (toISOString E (req_now req)))]]
          else if String.eqb (req_method req) "POST"
                  && includes "/register" (req_path req)
                  && (statusCode pr =? 201)
          then [published E (req_now req) "user-events"
                  [("type", JStr "USER_REGISTERED");
                   ("username", field "username" (req_body req));
                   ("email", field "email" (req_body req));
                   ("timestamp", JStr (toISOString E (req_now req)))]]
          else []))%list.
Proof.
  intros Hf. unfold authProxy_onProxyRes, bind. cbv zeta.
  destruct (_ && _ && (statusCode pr =? 200)) eqn:Hlogin.
  - apply pattern_test in Hlogin as (_ & _ & Hst).
    match goal with |- context [setImmediate (publishEvent E ?t ?tp ?ev) w] =>
      destruct (publish_run t tp ev w Hf) as (w1 & -> & Hlog)
    end.
    assert ((statusCode pr =? 201) = false) as -> by lia.
    rewrite andb_false_r. eexists. split; [reflexivity | exact Hlog].
  - cbn [ret]. destruct (_ && _ && (statusCode pr =? 201)) eqn:Hreg.
    + match goal with |- context [setImmediate (publishEvent E ?t ?tp ?ev) w] =>
        destruct (publish_run t tp ev w Hf) as (w1 & -> & Hlog)
      end.
      eexists. split; [reflexivity | exact Hlog].
    + eexists. split; [reflexivity|]. now rewrite app_nil_r.
Qed.

Lemma file_hook_run req pr w :
  head (kafka_faults w) ≠ Some true →
  ∃ w', fileProxy_onProxyRes E pr req w = (Ok tt, w') ∧
        kafka_log w' =
        (kafka_log w ++
         (if String.eqb (req_method req) "POST" && includes "/upload" (req_path req)
             && (statusCode pr =? 201)
          then [published E (req_now req) "file-events"
                  [("type", JStr "FILE_UPLOADED");
                   ("userId", field "userId" (req_user req));
                   ("filename", or_else (field "originalname" (req_file req))
                                        (field "filename" (req_body req)));
                   ("timestamp", JStr (toISOString E (req_now req)))]]
          else if String.eqb (req_method req) "DELETE" && (statusCode pr =? 200)
          then [published E (req_now req) "file-events"
                  [("type", JStr "FILE_DELETED");
                   ("userId", field "userId" (req_user req));
                   ("fileId", field "id" (req_params req));
                   ("timestamp", JStr (toISOString E (req_now req)))]]
          else []))%list.
Proof.
  intros Hf. unfold fileProxy_onProxyRes, bind. cbv zeta.
  destruct (_ && _ && (statusCode pr =? 201)) eqn:Hup.
  - apply pattern_test in Hup as (Hm & _ & _).
    match goal with |- context [setImmediate (publishEvent E ?t ?tp ?ev) w] =>
      destruct (publish_run t tp ev w Hf) as (w1 & -> & Hlog)
    end.
    rewrite Hm. cbn [String.eqb Ascii.eqb Bool.eqb andb].
    eexists. split; [reflexivity | exact Hlog].
  - cbn [ret]. destruct (_ && (statusCode pr =? 200)) eqn:Hdel.
    + match goal with |- context [setImmediate (publishEvent E ?t ?tp ?ev) w] =>
        destruct (publish_run t tp ev w Hf) as (w1 & -> & Hlog)
      end.
      eexists. split; [reflexivity | exact Hlog].
    + eexists. split; [reflexivity|]. now rewrite app_nil_r.
Qed.

(** C9 — events.  When the producer takes the message, a proxied request
    adds to the log exactly one message if it matches a pattern of its
    proxy, and none otherwise: login (POST, a path with [/login], 200) gives
    USER_LOGIN_ATTEMPT on user-events with the submitted email; register
    (POST, [/register], 201) gives USER_REGISTERED; upload (POST,
    [/upload], 201) gives FILE_UPLOADED on file-events with the subject of
    the identity and the file name; DELETE answered 200 gives FILE_DELETED on
    file-events; each carries the time stamp. *)
Theorem proxied_request_events
    (req : request) (res : res_obj) (pr : proxyRes) (w : world) :
  head (kafka_faults w) ≠ Some true →
  let stamp := JStr (toISOString E (req_now req)) in
  (upstream E AUTH_SERVICE_URL req = Some pr →
     (login_pattern req pr →
        kafka_log (authProxy E req res w).2 =
        (kafka_log w ++
         [Message "user-events" (JStr "system")
            (JSON_stringify E
               (JObj [("type", JStr "USER_LOGIN_ATTEMPT");
                      ("email", field "email" (req_body req));
                      ("timestamp", stamp)]))])%list) ∧
     (register_pattern req pr →
        kafka_log (authProxy E req res w).2 =
        (kafka_log w ++
         [Message "user-events" (JStr "system")
            (JSON_stringify E
               (JObj [("type", JStr "USER_REGISTERED");
                      ("username", field "username" (req_body req));
                      ("email", field "email" (req_body req));
                      ("timestamp", stamp)]))])%list) ∧
     (¬ login_pattern req pr → ¬ register_pattern req pr →
        kafka_log (authProxy E req res w).2 = kafka_log w)) ∧
  (upstream E FILE_SERVICE_URL req = Some pr →
     (upload_pattern req pr →
        kafka_log (fileProxy E req res w).2 =
        (kafka_log w ++
         [Message "file-events"
            (or_else (field "userId" (req_user req)) (JStr "system"))
            (JSON_stringify E
               (JObj [("type", JStr "FILE_UPLOADED");
                      ("userId", field "userId" (req_user req));
                      ("filename",
                       or_else (field "originalname" (req_file req))
                               (field "filename" (req_body req)));
                      ("timestamp", stamp)]))])%list) ∧
     (delete_pattern req pr →
        kafka_log (fileProxy E req res w).2 =
        (kafka_log w ++
         [Message "file-events"
            (or_else (field "userId" (req_user req)) (JStr "system"))
            (JSON_stringify E
               (JObj [("type", JStr "FILE_DELETED");
                      ("userId", field "userId" (req_user req));
                      ("fileId", field "id" (req_params req));
                      ("timestamp", stamp)]))])%list) ∧
     (¬ upload_pattern req pr → ¬ delete_pattern req pr →
        kafka_log (fileProxy E req res w).2 = kafka_log w)).
Proof.
  intros Hf stamp. split; intros Hup.
  - destruct (auth_hook_run req pr (with_call (CallBackend AUTH_SERVICE_URL req) w) Hf)
      as (w' & Hrun & Hlog). cbn [kafka_log with_call] in Hlog.
    pose proof (proxy_log AUTH_SERVICE_URL (authProxy_onProxyRes E) req res pr w _ Hup
                  (ex_intro _ w' (conj Hrun Hlog))) as Hproxy.
    fold (authProxy E) in Hproxy. rewrite Hproxy. clear Hproxy Hrun Hlog.
    split; [|split].
    + intros Hp. apply pattern_test in Hp. now rewrite Hp.
    + intros Hp. pose proof Hp as (_ & _ & Hst). apply pattern_test in Hp.
      rewrite Hp. assert ((statusCode pr =? 200) = false) as -> by lia.
      now rewrite andb_false_r.
    + intros Hl Hr. unfold login_pattern, register_pattern in Hl, Hr.
      rewrite <- pattern_test in Hl, Hr.
      apply not_true_is_false in Hl, Hr. rewrite Hl, Hr. apply app_nil_r.
  - destruct (file_hook_run req pr (with_call (CallBackend FILE_SERVICE_URL req) w) Hf)
      as (w' & Hrun & Hlog). cbn [kafka_log with_call] in Hlog.
    pose proof (proxy_log FILE_SERVICE_URL (fileProxy_onProxyRes E) req res pr w _ Hup
                  (ex_intro _ w' (conj Hrun Hlog))) as Hproxy.
    fold (fileProxy E) in Hproxy. rewrite Hproxy. clear Hproxy Hrun Hlog.
    split; [|split].
    + intros Hp. apply pattern_test in Hp. now rewrite Hp.
    + intros Hp. pose proof Hp as (Hm & _). apply delete_test in Hp.
      rewrite Hp, Hm. reflexivity.
    + intros Hu Hd. unfold upload_pattern in Hu.
      rewrite <- pattern_test in Hu. rewrite <- delete_test in Hd.
      apply not_true_is_false in Hu, Hd. rewrite Hu, Hd. apply app_nil_r.
Qed.

(** C10 — health.  The handler of [GET /health] answers 200 with status
    ["OK"] in every state of the world; the state of the connection only
    selects the text of the field [redis], ["connected"] or
    ["disconnected"]. *)
Theorem health_always_ok (req : request) (res : res_obj) (w : world) :
  ∃ body w',
    health E req res w = (Ok (Response 200 (SentJson body)), w') ∧
    field "status" body = JStr "OK" ∧
    field "redis" body
      = JStr (if redis_isOpen w then "connected" else "disconnected").
Proof.
  unfold health. run_res_json. do 2 eexists. split; [reflexivity|].
  split; reflexivity.
Qed.

End Pipeline.

Section Defects.

Variable E : env.

(** The write that fills the identity cache is awaited inside the [try]:
    when it rejects, a request with a valid token is answered 401. *)
Lemma population_write_failure (req : request) (res : res_obj) (w : world)
    (tok : string) (decoded : jsval) (fs : list bool) :
  bearer req = Some tok → tok ≠ "" →
  Redis.find (req_now req) ("token:" +:+ tok) (redis_db w) = None →
  jwt_verify E (req_now req) tok = Some decoded →
  Redis.find (req_now req) ("user:" +:+ ToString (field "userId" decoded))
    (redis_db w) = None →
  redis_faults w = false :: false :: true :: fs →
  outcome (verifyToken E req res w)
  = Ok (Done (Response 401 (SentJson (error_body "Invalid or expired token")))).
Proof.
  intros Hb Hne Htok Hjwt Huser Hf.
  unfold outcome, verifyToken, try_catch, bind. rewrite Hb.
  cbn [falsy_text default from_option id].
  destruct (String.eqb_spec tok "") as [|_]; [done|].
  unfold Redis.get, Redis.setEx, Redis.command, jwt_verify_call.
  rewrite Hf, Hjwt. world_simpl. rewrite Htok.
  cbn [fmap option_fmap option_map]. rewrite bool_decide_eq_false_2 by done.
  world_simpl. rewrite Huser.
  cbn [fmap option_fmap option_map falsy_text]. world_simpl.
  run_res_json. reflexivity.
Qed.

(** On a GET miss the route hands the request to the file proxy with the
    wrapper installed, and the store is left as authentication left it: the
    proxied body is not written under the cache key. *)
Lemma cache_miss_on_route (req0 req : request) (res : res_obj) (w0 w : world) :
  verifyToken E req0 (ResObj None) w0 = (Ok (Next req res), w) →
  req_method req = "GET" →
  Redis.find (req_now req) (cacheKey_of req) (redis_db w) = None →
  head (redis_faults w) ≠ Some true →
  ∃ w1, api_files E req0 w0
          = fileProxy E req (ResObj (Some (cacheKey_of req))) w1 ∧
        redis_db (api_files E req0 w0).2 = redis_db w.
Proof.
  intros Hauth Hget Hfind Hf.
  unfold api_files, bind. rewrite Hauth.
  unfold cacheMiddleware. rewrite Hget.
  cbn [String.eqb Ascii.eqb Bool.eqb negb].
  unfold try_catch, bind, Redis.get, Redis.command.
  destruct (redis_faults w) as [|[] fs]; [|done|];
    world_simpl; rewrite Hfind; cbn [fmap option_fmap option_map falsy_text];
    world_simpl; eexists; (split; [reflexivity|]);
    now rewrite fileProxy_leaves_store.
Qed.

End Defects.

(** ** Worked cases *)

(** One client, 102 requests one second apart from a quiet start: the 50th
    is allowed, the 51st waits 500 ms, the 100th waits 25 s, the 101st and
    the 102nd are rejected, and the store has counted all 102. *)
Example hundred_and_two_requests :
  let rs := (λ i : nat, Sample.list_files (1000 * Z.of_nat i)) <$> seq 0 102 in
  let run := serve rs Sample.quiet in
  run.1 !! 49%nat = Some Allow ∧
  run.1 !! 50%nat = Some (Delay 500) ∧
  run.1 !! 99%nat = Some (Delay 25000) ∧
  run.1 !! 100%nat = Some (Reject too_many) ∧
  run.1 !! 101%nat = Some (Reject too_many) ∧
  ent_value <$> redis_db run.2 !! Sample.client = Some "102".
Proof. vm_compute. repeat split. Qed.

Lemma rate_limit_hard_cap_witness :
  let rs := [Sample.list_files 0; Sample.ping 5; Sample.login 10;
             Sample.list_files 20] in
  (∀ i r, rs !! i = Some r → req_ip r = Sample.client →
     ∃ v, (serve rs Sample.quiet).1 !! i = Some v ∧
          (rank Sample.client rs i <= 100 → v = Allow ∨ ∃ ms, v = Delay ms) ∧
          (100 < rank Sample.client rs i → v = Reject too_many)) ∧
  res_status too_many = 429 ∧
  redis_db (serve rs Sample.quiet).2 !! Sample.client
    = Some (Entry (print_int (hits Sample.client rs)) (Some (0 + window))).
Proof.
  apply (rate_limit_hard_cap Sample.client 0 (Sample.list_files 0)
           [Sample.ping 5; Sample.login 10; Sample.list_files 20] Sample.quiet).
  - repeat split.
  - reflexivity.
  - reflexivity.
  - intros r Hr _. apply list_elem_of_In in Hr.
    destruct Hr as [<-|[<-|[<-|[]]]]; unfold window; cbn; lia.
Defined.



Lemma revoked_token_rejected_witness :
  ∃ r w',
    verifyToken Sample.E (Sample.list_files 0) (ResObj None) Sample.revoked
      = (Ok (Done r), w') ∧
    res_status r = 401 ∧
    calls w' = calls Sample.revoked ∧
    (head (redis_faults Sample.revoked) ≠ Some true →
     r = Response 401 (SentJson (error_body "Token has been revoked"))).
Proof.
  apply (revoked_token_rejected Sample.E (Sample.list_files 0) (ResObj None)
           Sample.revoked "good" (Entry "blacklisted" None)).
  - reflexivity.
  - discriminate.
  - reflexivity.
  - reflexivity.
Defined.





(** C5 — the write that fills the identity cache.  With the valid token
    and a store that answers, [list_files] is let through with the verified
    identity; when the store answers the two lookups and rejects the write,
    the same request is answered 401 "Invalid or expired token". *)
Theorem population_write_failure_fails_request :
  bearer (Sample.list_files 0) = Some "good" ∧
  jwt_verify Sample.E 0 "good" = Some Sample.identity ∧
  outcome (verifyToken Sample.E (Sample.list_files 0) (ResObj None) Sample.quiet)
    = Ok (Next (set_user Sample.identity (Sample.list_files 0)) (ResObj None)) ∧
  outcome (verifyToken Sample.E (Sample.list_files 0) (ResObj None)
             Sample.write_fails)
    = Ok (Done (Response 401 (SentJson (error_body "Invalid or expired token")))).
Proof. repeat split; vm_compute; reflexivity. Qed.

Lemma response_cache_read_path_witness :
  let req := set_user Sample.identity (Sample.list_files 0) in
  let w := with_call (CallVerify "good") Sample.response_cached in
  cacheMiddleware Sample.E (Sample.upload 0) (ResObj None) Sample.quiet
    = (Ok (Next (Sample.upload 0) (ResObj None)), Sample.quiet) ∧
  cacheKey_of (Sample.list_files 0) = "cache:/api/files:anonymous" ∧
  cacheKey_of req = "cache:/api/files:42" ∧
  req_originalUrl (set_user Sample.identity (Sample.list_files 9))
    = req_originalUrl req ∧
  (∃ w', cacheMiddleware Sample.E req (ResObj None) w
           = (Ok (Done (Response 200 (SentJson (JBool true)))), w') ∧
         calls w' = calls w ∧ redis_db w' = redis_db w) ∧
  (∃ w', api_files Sample.E (Sample.list_files 0) Sample.response_cached
           = (Ok (Response 200 (SentJson (JBool true))), w') ∧
         calls w' = calls w ∧ redis_db w' = redis_db w) ∧
  wire Sample.E (SentJson (JBool true)) = "true".
Proof.
  intros req w.
  pose proof (response_cache_read_path Sample.E (Sample.upload 0) (ResObj None)
                Sample.quiet) as (Hpost & _).
  pose proof (response_cache_read_path Sample.E (Sample.list_files 0)
                (ResObj None) Sample.quiet) as (_ & Hanon & _).
  pose proof (response_cache_read_path Sample.E req (ResObj None) w)
    as (_ & _ & Hkey & Hurl & Hhit).
  destruct (Hhit (Entry "true" (Some 300000)) (JBool true))
    as (Hmw & Hroute & Hbody); try reflexivity; try discriminate.
  split; [apply Hpost; discriminate|].
  split; [apply Hanon; reflexivity|].
  split; [apply (Hkey "42"); [reflexivity | discriminate]|].
  split; [apply (Hurl (set_user Sample.identity (Sample.list_files 9)));
          reflexivity|].
  split; [apply Hmw; reflexivity|].
  split; [apply (Hroute (Sample.list_files 0) Sample.response_cached);
          reflexivity|].
  exact (proj2 (Hbody (JBool true) eq_refl eq_refl)).
Defined.

(** C7, where the key is not that of the path and the body is not the
    entry.  Three requests of one identity for the same path under the
    mount, whose URLs differ by a trailing slash and by a query string, have
    three keys.  With a [JSON.parse] that skips white space, the entry
    [" true"] is answered as [true], whose body text is ["true"]. *)
Lemma response_cache_read_path_counterexample :
  req_path files_slash = req_path files_plain ∧
  req_path files_query = req_path files_plain ∧
  req_user files_slash = req_user files_plain ∧
  req_user files_query = req_user files_plain ∧
  cacheKey_of files_plain = "cache:/api/files:42" ∧
  cacheKey_of files_slash = "cache:/api/files/:42" ∧
  cacheKey_of files_query = "cache:/api/files?page=2:42" ∧
  cacheKey_of files_slash ≠ cacheKey_of files_plain ∧
  cacheKey_of files_query ≠ cacheKey_of files_plain ∧
  Redis.find 0 (cacheKey_of files_plain) (redis_db spaced_cached)
    = Some (Entry " true" (Some 300000)) ∧
  outcome (cacheMiddleware lenient files_plain (ResObj None) spaced_cached)
    = Ok (Done (Response 200 (SentJson (JBool true)))) ∧
  wire lenient (SentJson (JBool true)) = "true" ∧
  wire lenient (SentJson (JBool true)) ≠ " true".
Proof.
  repeat split; try discriminate; vm_compute; reflexivity.
Qed.

(** C8 — the write path of the response cache.  [list_files] with the valid
    token misses the cache and is proxied; the body of the file service
    reaches the client, nothing is stored under the cache key, and the same
    request one second later is proxied again. *)
Theorem proxied_body_is_not_cached :
  let first := api_files Sample.E (Sample.list_files 0) Sample.quiet in
  let second := api_files Sample.E (Sample.list_files 1000) first.2 in
  first.1 = Ok (Response 200 (SentRaw "[]")) ∧
  cacheKey_of (set_user Sample.identity (Sample.list_files 0))
    = "cache:/api/files:42" ∧
  redis_db first.2 !! "cache:/api/files:42" = None ∧
  second.1 = Ok (Response 200 (SentRaw "[]")) ∧
  length (filter Sample.is_backend_call (calls second.2)) = 2%nat.
Proof. repeat split; vm_compute; reflexivity. Qed.

Lemma proxied_request_events_witness :
  kafka_log (authProxy Sample.E (Sample.login 7) (ResObj None) Sample.quiet).2
    = [Message "user-events" (JStr "system")
         (JSON_stringify Sample.E
            (JObj [("type", JStr "USER_LOGIN_ATTEMPT");
                   ("email", JStr "ann@example.org");
                   ("timestamp", JStr "7")]))] ∧
  kafka_log (authProxy Sample.E (Sample.register 7) (ResObj None) Sample.quiet).2
    = [Message "user-events" (JStr "system")
         (JSON_stringify Sample.E
            (JObj [("type", JStr "USER_REGISTERED");
                   ("username", JStr "ann");
                   ("email", JStr "ann@example.org");
                   ("timestamp", JStr "7")]))] ∧
  kafka_log (fileProxy Sample.E (Sample.upload 7) (ResObj None) Sample.quiet).2
    = [Message "file-events" (JStr "42")
         (JSON_stringify Sample.E
            (JObj [("type", JStr "FILE_UPLOADED");
                   ("userId", JStr "42");
                   ("filename", JStr "notes.txt");
                   ("timestamp", JStr "7")]))] ∧
  kafka_log (fileProxy Sample.E (Sample.remove 7) (ResObj None) Sample.quiet).2
    = [Message "file-events" (JStr "42")
         (JSON_stringify Sample.E
            (JObj [("type", JStr "FILE_DELETED");
                   ("userId", JStr "42");
                   ("fileId", JUndefined);
                   ("timestamp", JStr "7")]))] ∧
  kafka_log (authProxy Sample.E (Sample.ping 7) (ResObj None) Sample.quiet).2 = [] ∧
  kafka_log (fileProxy Sample.E (Sample.list_files 7) (ResObj None) Sample.quiet).2
    = [].
Proof.
  assert (Hf : head (kafka_faults Sample.quiet) ≠ Some true) by discriminate.
  split; [|split; [|split; [|split; [|split]]]].
  - destruct (proxied_request_events Sample.E (Sample.login 7) (ResObj None)
                (ProxyRes 200 "[]") Sample.quiet Hf) as [Hauth _].
    destruct (Hauth eq_refl) as (Hlogin & _).
    exact (Hlogin (conj eq_refl (conj eq_refl eq_refl))).
  - destruct (proxied_request_events Sample.E (Sample.register 7) (ResObj None)
                (ProxyRes 201 "[]") Sample.quiet Hf) as [Hauth _].
    destruct (Hauth eq_refl) as (_ & Hregister & _).
    exact (Hregister (conj eq_refl (conj eq_refl eq_refl))).
  - destruct (proxied_request_events Sample.E (Sample.upload 7) (ResObj None)
                (ProxyRes 201 "[]") Sample.quiet Hf) as [_ Hfile].
    destruct (Hfile eq_refl) as (Hupload & _).
    exact (Hupload (conj eq_refl (conj eq_refl eq_refl))).
  - destruct (proxied_request_events Sample.E (Sample.remove 7) (ResObj None)
                (ProxyRes 200 "[]") Sample.quiet Hf) as [_ Hfile].
    destruct (Hfile eq_refl) as (_ & Hdelete & _).
    exact (Hdelete (conj eq_refl eq_refl)).
  - destruct (proxied_request_events Sample.E (Sample.ping 7) (ResObj None)
                (ProxyRes 200 "[]") Sample.quiet Hf) as [Hauth _].
    destruct (Hauth eq_refl) as (_ & _ & Hnone).
    apply Hnone; intros (Hm & _); discriminate Hm.
  - destruct (proxied_request_events Sample.E (Sample.list_files 7) (ResObj None)
                (ProxyRes 200 "[]") Sample.quiet Hf) as [_ Hfile].
    destruct (Hfile eq_refl) as (_ & _ & Hnone).
    apply Hnone; intros (Hm & _); discriminate Hm.
Defined.

(** * Further properties of the gateway *)

(** ** The store of the rate limiter *)

(** X1 — the three methods of [RedisStore] absorb every failure of the
    Redis client: whatever the store holds and whatever the commands do,
    [increment] returns a hit count and [decrement] and [resetKey] return
    normally. *)
Theorem RedisStore_never_throws (t : Z) (key : string) (w : world) :
  (∃ n w', RedisStore.increment t key w = (Ok n, w')) ∧
  (∃ w', RedisStore.decrement t key w = (Ok tt, w')) ∧
  (∃ w', RedisStore.resetKey key w = (Ok tt, w')).
Proof.
  split; [|split].
  - unfold RedisStore.increment, try_catch, bind.
    destruct (Redis.incr t key w) as [[n|] w1]; [|eauto].
    destruct (n =? 1); [|cbn; eauto].
    destruct (Redis.expire t key 900 w1) as [[b|] w2]; cbn; eauto.
  - unfold RedisStore.decrement, try_catch, bind.
    destruct (Redis.decr t key w) as [[n|] w1]; cbn; eauto.
  - unfold RedisStore.resetKey, try_catch.
    destruct (Redis.del key w) as [[[]|] w1]; cbn; eauto.
Qed.

(** X2 — the window is fixed, not sliding: a hit inside the window counts
    one more and keeps the deadline the first hit has set; a hit at or after
    the deadline finds the counter gone, counts 1 and sets a new deadline
    900 seconds later. *)
Theorem increment_fixed_window (a : string) (k d t : Z) (w : world) :
  store_counting a k d w → 1 <= k →
  (t < d →
   ∃ w', RedisStore.increment t a w = (Ok (k + 1), w') ∧
         store_counting a (k + 1) d w') ∧
  (d <= t →
   ∃ w', RedisStore.increment t a w = (Ok 1, w') ∧
         store_counting a 1 (t + 1000 * 900) w').
Proof.
  intros Hc Hk. split; intros Ht.
  - destruct (increment_counting a k d t w Hc Hk Ht) as (w' & Hrun & Hc' & _).
    eauto.
  - destruct (increment_fresh a t w) as (w' & Hrun & Hc' & _); [|eauto].
    destruct Hc as (Hdb & Hf). split; [|exact Hf].
    unfold Redis.find. rewrite Hdb. unfold Redis.live. cbn.
    now assert ((t <? d) = false) as -> by lia.
Qed.

Lemma store_counting_db a k d w :
  store_counting a k d w →
  <[a := Entry (print_int k) (Some d)]> (redis_db w) = redis_db w.
Proof. intros (Hdb & _). now apply insert_id. Qed.

(** X3 — round trip: inside a window, a hit followed by [decrement] leaves
    the store as it was. *)
Theorem increment_decrement_round_trip (a : string) (k d t t' : Z) (w : world) :
  store_counting a k d w → 1 <= k → t < d → t' < d →
  ∃ w1 w2, RedisStore.increment t a w = (Ok (k + 1), w1) ∧
           RedisStore.decrement t' a w1 = (Ok tt, w2) ∧
           redis_db w2 = redis_db w.
Proof.
  intros Hc Hk Ht Ht'. pose proof Hc as (Hdb & Hf).
  unfold RedisStore.increment, RedisStore.decrement, try_catch, bind,
    Redis.incr, Redis.decr, Redis.add, Redis.command.
  rewrite Hf. unfold Redis.find. rewrite Hdb. unfold Redis.live.
  cbn [ent_value ent_expireAt].
  assert ((t <? d) = true) as -> by lia.
  cbn [ent_value ent_expireAt]. rewrite parse_print_int.
  assert ((k + 1 =? 1) = false) as -> by lia. cbn [ret].
  do 2 eexists. split; [reflexivity|].
  cbn [redis_faults redis_db with_db]. rewrite Hf, lookup_insert_eq.
  cbn [ent_value ent_expireAt].
  assert ((t' <? d) = true) as -> by lia.
  cbn [ent_value ent_expireAt]. rewrite parse_print_int. cbn [ret]. split; [reflexivity|].
  cbn [redis_db with_db]. rewrite insert_insert_eq.
  replace (k + 1 + -1) with k by lia.
  now apply store_counting_db.
Qed.

(** X4 — [resetKey] clears a counter whatever it holds (a count, a text that
    is no number, a counter without deadline): with a store that answers,
    the next hit counts 1 and opens a window of 900 seconds. *)
Theorem resetKey_then_increment (a : string) (t : Z) (w : world) :
  redis_faults w = [] →
  ∃ w1 w2, RedisStore.resetKey a w = (Ok tt, w1) ∧
           RedisStore.increment t a w1 = (Ok 1, w2) ∧
           store_counting a 1 (t + 1000 * 900) w2.
Proof.
  intros Hf.
  unfold RedisStore.resetKey, try_catch, Redis.del, Redis.command.
  rewrite Hf.
  destruct (increment_fresh a t (with_db (delete a) w)) as (w2 & Hrun & Hc & _).
  { split; [|exact Hf]. unfold Redis.find. cbn. now rewrite lookup_delete_eq. }
  exists (with_db (delete a) w), w2.
  split; [reflexivity|]. split; [exact Hrun | exact Hc].
Qed.

Lemma command_keeps_key {A} a (run : M A) :
  keeps_key a run → keeps_key a (Redis.command run).
Proof.
  intros Hrun w. unfold Redis.command.
  destruct (redis_faults w) as [|[] fs]; [apply Hrun | reflexivity |].
  now rewrite Hrun.
Qed.

Lemma add_keeps_key a b delta t : b ≠ a → keeps_key a (Redis.add delta t b).
Proof.
  intros Hne. apply command_keeps_key. intros w.
  destruct (Redis.find t b (redis_db w)) as [e|].
  - destruct (parse_int (ent_value e)); cbn; [|reflexivity].
    now rewrite lookup_insert_ne.
  - cbn. now rewrite lookup_insert_ne.
Qed.

Lemma expire_keeps_key a b t secs : b ≠ a → keeps_key a (Redis.expire t b secs).
Proof.
  intros Hne. apply command_keeps_key. intros w.
  destruct (Redis.find t b (redis_db w)) as [e|]; cbn; [|reflexivity].
  now rewrite lookup_insert_ne.
Qed.

Lemma del_keeps_key a b : b ≠ a → keeps_key a (Redis.del b).
Proof.
  intros Hne. apply command_keeps_key. intros w. cbn.
  now rewrite lookup_delete_ne.
Qed.

Lemma ret_keeps_key {A} a (x : A) : keeps_key a (ret x).
Proof. now intros w. Qed.

Lemma bind_keeps_key {A B} a (m : M A) (k : A → M B) :
  keeps_key a m → (∀ x, keeps_key a (k x)) → keeps_key a (bind m k).
Proof.
  intros Hm Hk w. unfold bind. specialize (Hm w).
  destruct (m w) as [[x|] w1]; cbn [snd] in *; [|done].
  now rewrite Hk.
Qed.

Lemma try_catch_keeps_key {A} a (m h : M A) :
  keeps_key a m → keeps_key a h → keeps_key a (try_catch m h).
Proof.
  intros Hm Hh w. unfold try_catch. specialize (Hm w).
  destruct (m w) as [[x|] w1]; cbn [snd] in *; [done|].
  now rewrite Hh.
Qed.

(** X5 — the counters of two client addresses never interfere: whatever
    the store holds and whether or not its commands fail, [increment],
    [decrement] and [resetKey] on the key of [b] leave the entry of every
    other key [a] as it is. *)
Theorem RedisStore_keys_isolated (a b : string) (t : Z) (w : world) :
  b ≠ a →
  redis_db (RedisStore.increment t b w).2 !! a = redis_db w !! a ∧
  redis_db (RedisStore.decrement t b w).2 !! a = redis_db w !! a ∧
  redis_db (RedisStore.resetKey b w).2 !! a = redis_db w !! a.
Proof.
  intros Hne. split; [|split].
  - apply (try_catch_keeps_key a); [|apply ret_keeps_key].
    apply bind_keeps_key; [now apply add_keeps_key|]. intros n.
    apply bind_keeps_key; [|intros; apply ret_keeps_key].
    destruct (n =? 1); [|apply ret_keeps_key].
    apply bind_keeps_key; [now apply expire_keeps_key|].
    intros; apply ret_keeps_key.
  - apply (try_catch_keeps_key a); [|apply ret_keeps_key].
    apply bind_keeps_key; [now apply add_keeps_key|].
    intros; apply ret_keeps_key.
  - apply (try_catch_keeps_key a); [|apply ret_keeps_key].
    now apply del_keeps_key.
Qed.

Lemma increments_without_deadline a ts : ∀ k w,
  redis_db w !! a = Some (Entry (print_int k) None) →
  redis_faults w = [] → 1 <= k →
  (increments ts a w).1 = (λ i : nat, k + 1 + Z.of_nat i) <$> seq 0 (length ts) ∧
  redis_db (increments ts a w).2 !! a
    = Some (Entry (print_int (k + Z.of_nat (length ts))) None).
Proof.
  induction ts as [|t ts IH]; intros k w Hdb Hf Hk.
  - cbn. rewrite Z.add_0_r. auto.
  - cbn [increments].
    unfold RedisStore.increment, try_catch, bind, Redis.incr, Redis.add,
      Redis.command.
    rewrite Hf. unfold Redis.find. rewrite Hdb. unfold Redis.live.
    cbn [ent_value ent_expireAt]. rewrite parse_print_int.
    assert ((k + 1 =? 1) = false) as -> by lia. cbn [ret].
    match goal with |- context [increments ts a ?w1] =>
      destruct (IH (k + 1) w1) as [IHn IHdb];
        [cbn; now rewrite lookup_insert_eq | exact Hf | lia |];
      destruct (increments ts a w1) as [ns w2]
    end.
    cbn [fst snd length] in *. split.
    + rewrite IHn. cbn [seq fmap list_fmap]. f_equal; [lia|].
      rewrite <- seq_shift, <- list_fmap_compose.
      apply list_fmap_ext. intros i x _. cbn. lia.
    + rewrite IHdb. do 3 f_equal. lia.
Qed.

(** X6 — the counter is opened in two commands.  When INCR opens it and
    EXPIRE then fails, the failure is absorbed and the counter stays without
    a deadline; from then on, with a store that answers, every later hit at
    whatever time counts one more and sets no deadline: the count never
    starts again at 1. *)
Theorem expire_failure_leaves_counter_forever
    (a : string) (t : Z) (ts : list Z) (w : world) :
  Redis.find t a (redis_db w) = None →
  redis_faults w = [false; true] →
  ∃ w1, RedisStore.increment t a w = (Ok 1, w1) ∧
        redis_db w1 !! a = Some (Entry (print_int 1) None) ∧
        (increments ts a w1).1
          = (λ i : nat, 2 + Z.of_nat i) <$> seq 0 (length ts) ∧
        redis_db (increments ts a w1).2 !! a
          = Some (Entry (print_int (1 + Z.of_nat (length ts))) None).
Proof.
  intros Hfind Hf.
  unfold RedisStore.increment, try_catch, bind, Redis.incr, Redis.add,
    Redis.command.
  rewrite Hf. cbn [redis_db redis_faults with_redis_faults with_db].
  rewrite Hfind. change (1 =? 1) with true. cbv beta iota.
  unfold Redis.expire, Redis.command. cbn [redis_faults with_redis_faults with_db ret].
  eexists. split; [reflexivity|].
  match goal with |- redis_db ?w1 !! a = _ ∧ _ =>
    assert (Hdb1 : redis_db w1 !! a = Some (Entry (print_int 1) None))
      by (cbn; now rewrite lookup_insert_eq);
    destruct (increments_without_deadline a ts 1 w1 Hdb1 eq_refl ltac:(lia))
      as [Hn Hdb]
  end.
  split; [exact Hdb1|]. split; [exact Hn | exact Hdb].
Qed.

(** ** The bearer token *)

Lemma split_one_word (c : ascii) (s : string) :
  occurs c s = false → split c s = [s].
Proof.
  induction s as [|x s IH]; [reflexivity|].
  cbn [split occurs]. intros H. apply orb_false_iff in H as [Hx Hs].
  rewrite Hx, (IH Hs). reflexivity.
Qed.

Lemma split_first_word (c : ascii) (s rest : string) :
  occurs c s = false → split c (s +:+ String c rest) = s :: split c rest.
Proof.
  induction s as [|x s IH].
  - intros _. change ("" +:+ String c rest) with (String c rest).
    cbn [split]. now rewrite Ascii.eqb_refl.
  - change (String x s +:+ String c rest) with (String x (s +:+ String c rest)).
    cbn [split occurs]. intros H. apply orb_false_iff in H as [Hx Hs].
    rewrite Hx, (IH Hs). reflexivity.
Qed.

(** X7 — the token is the second word of the Authorization header, whatever
    the first word is: the scheme is not looked at, words after the second
    are dropped, and a header of a single word carries no token. *)
Theorem bearer_is_second_word (req : request) :
  (∀ header, req_authorization req = Some header →
             occurs " " header = false → bearer req = None) ∧
  (∀ scheme tok, req_authorization req = Some (scheme +:+ " " +:+ tok) →
                 occurs " " scheme = false → occurs " " tok = false →
                 bearer req = Some tok) ∧
  (∀ scheme tok more,
     req_authorization req = Some (scheme +:+ " " +:+ tok +:+ " " +:+ more) →
     occurs " " scheme = false → occurs " " tok = false →
     bearer req = Some tok).
Proof.
  unfold bearer. split; [|split].
  - intros header -> H. now rewrite split_one_word.
  - intros scheme tok -> Hs Ht.
    change (" " +:+ tok) with (String " " tok).
    now rewrite split_first_word, split_one_word.
  - intros scheme tok more -> Hs Ht.
    change (" " +:+ tok +:+ " " +:+ more)
      with (String " " (tok +:+ String " " more)).
    now rewrite split_first_word, split_first_word.
Qed.

Section Tokens.

Variable E : env.

(** X8 — a request without Authorization header, with a header of one word,
    or with two spaces after the first word is answered 401 "No token
    provided"; no command is sent to the store and [jwt.verify] is not
    called. *)
Theorem missing_token_rejected (req : request) (w : world) :
  req_authorization req = None ∨
  (∃ header, req_authorization req = Some header ∧ occurs " " header = false) ∨
  (∃ scheme rest, req_authorization req = Some (scheme +:+ "  " +:+ rest) ∧
                  occurs " " scheme = false) →
  verifyToken E req (ResObj None) w
  = (Ok (Done (Response 401 (SentJson (error_body "No token provided")))), w).
Proof.
  intros H.
  assert (Hb : falsy_text (bearer req) = true).
  { unfold bearer.
    destruct H as [-> | [(header & -> & Hh) | (scheme & rest & -> & Hs)]].
    - reflexivity.
    - now rewrite split_one_word.
    - change ("  " +:+ rest) with (String " " (String " " rest)).
      rewrite split_first_word by done. reflexivity. }
  unfold verifyToken, try_catch, bind. now rewrite Hb.
Qed.

(** X9 — [verifyToken] never throws, and whenever it answers instead of
    calling [next()] the answer is a 401 with a body of the form
    [{error: message}]. *)
Theorem verifyToken_answers_401 (req : request) (res : res_obj) (w : world) :
  ∃ s w', verifyToken E req res w = (Ok s, w') ∧
          ∀ r, s = Done r →
               res_status r = 401 ∧ ∃ text, res_sent r = SentJson (error_body text).
Proof.
  unfold verifyToken, try_catch, bind.
  destruct (falsy_text (bearer req)).
  { run_res_json. do 2 eexists. split; [reflexivity|].
    intros r [= <-]. eauto. }
  unfold Redis.get, Redis.setEx, Redis.command, jwt_verify_call.
  set (tok := default "" (bearer req)).
  destruct (jwt_verify E (req_now req) tok) as [decoded|].
  all: destruct (redis_faults w) as [|b1 [|b2 [|b3 fs]]] eqn:Hf;
    try destruct b1; try destruct b2; try destruct b3; world_simpl.
  all: try destruct (bool_decide _); world_simpl; rewrite ?Hf; world_simpl.
  all: try destruct (falsy_text _); world_simpl; rewrite ?Hf; world_simpl.
  all: try run_res_json.
  all: do 2 eexists; (split; [reflexivity|]); intros r [= <-]; eauto.
Qed.

(** X10 — how the identity cache is filled.  For a token that is not
    revoked and that [jwt.verify] accepts, with a store that answers, the
    request goes on with the decoded payload as its identity; when the
    store has no text under [user:<userId>] the JSON text of the payload is
    stored there with a deadline of 3600 seconds, and when it has one the
    store is left as it is (the entry is neither compared with the payload
    nor given a new deadline). *)
Theorem identity_cache_filled_once
    (req : request) (res : res_obj) (w : world) (tok : string) (decoded : jsval) :
  bearer req = Some tok → tok ≠ "" →
  ent_value <$> Redis.find (req_now req) ("token:" +:+ tok) (redis_db w)
    ≠ Some "blacklisted" →
  jwt_verify E (req_now req) tok = Some decoded →
  redis_faults w = [] →
  let userKey := "user:" +:+ ToString (field "userId" decoded) in
  let cached := ent_value <$> Redis.find (req_now req) userKey (redis_db w) in
  ∃ w', verifyToken E req res w = (Ok (Next (set_user decoded req) res), w') ∧
        (falsy_text cached = true →
         redis_db w' = <[userKey := Entry (JSON_stringify E decoded)
                                      (Some (req_now req + 1000 * 3600))]>
                         (redis_db w)) ∧
        (falsy_text cached = false → redis_db w' = redis_db w).
Proof.
  intros Hb Hne Hrev Hjwt Hf userKey cached.
  unfold verifyToken, try_catch, bind. rewrite Hb.
  cbn [falsy_text default from_option id].
  destruct (String.eqb_spec tok "") as [|_]; [done|].
  unfold Redis.get, Redis.setEx, Redis.command, jwt_verify_call.
  rewrite Hf, Hjwt. rewrite bool_decide_eq_false_2 by exact Hrev.
  world_simpl. rewrite Hf. fold userKey. fold cached.
  destruct (falsy_text cached); world_simpl; rewrite ?Hf;
    eexists; (split; [reflexivity|]); split; intros; try done.
Qed.

End Tokens.

(** ** The response cache *)

Lemma occurs_app_sep (c : ascii) (s t : string) :
  occurs c (s +:+ String c t) = true.
Proof.
  induction s as [|x s IH].
  - change ("" +:+ String c t) with (String c t). cbn [occurs].
    now rewrite Ascii.eqb_refl.
  - change (String x s +:+ String c t) with (String x (s +:+ String c t)).
    cbn [occurs]. rewrite IH. apply orb_true_r.
Qed.

Lemma app_sep_inj (c : ascii) (s1 : string) : ∀ s2 t1 t2,
  occurs c t1 = false → occurs c t2 = false →
  s1 +:+ String c t1 = s2 +:+ String c t2 → s1 = s2 ∧ t1 = t2.
Proof.
  induction s1 as [|x s1 IH]; intros [|y s2] t1 t2 H1 H2 Heq.
  - now injection Heq.
  - change ("" +:+ String c t1) with (String c t1) in Heq.
    change (String y s2 +:+ String c t2)
      with (String y (s2 +:+ String c t2)) in Heq.
    injection Heq as _ ->. now rewrite occurs_app_sep in H1.
  - change ("" +:+ String c t2) with (String c t2) in Heq.
    change (String x s1 +:+ String c t1)
      with (String x (s1 +:+ String c t1)) in Heq.
    injection Heq as _ <-. now rewrite occurs_app_sep in H2.
  - change (String x s1 +:+ String c t1)
      with (String x (s1 +:+ String c t1)) in Heq.
    change (String y s2 +:+ String c t2)
      with (String y (s2 +:+ String c t2)) in Heq.
    injection Heq as -> Heq.
    destruct (IH s2 t1 t2 H1 H2 Heq) as [-> ->]. auto.
Qed.

(** X11 — what the cache key tells apart.  When the subjects of two
    requests hold no colon (as identifiers do), equal keys mean the same
    original URL and the same subject text, and so the same [userId] for two
    identities whose [userId] is a string that is not empty.  The subject
    text is all the key holds of the identity: the number 42 and the string
    ["42"] share a key, and an identity whose [userId] is 0 shares the key
    of the requests with no identity. *)
Theorem cache_key_separates :
  (∀ req1 req2 : request,
     occurs ":" (subject_text req1) = false →
     occurs ":" (subject_text req2) = false →
     cacheKey_of req1 = cacheKey_of req2 →
     req_originalUrl req1 = req_originalUrl req2 ∧
     subject_text req1 = subject_text req2 ∧
     (∀ s1 s2, field "userId" (req_user req1) = JStr s1 → s1 ≠ "" →
               field "userId" (req_user req2) = JStr s2 → s2 ≠ "" →
               s1 = s2)) ∧
  cacheKey_of (files_as (JNum 42)) = cacheKey_of (files_as (JStr "42")) ∧
  cacheKey_of (files_as (JNum 0)) = cacheKey_of (Sample.list_files 0).
Proof.
  split; [|split; reflexivity].
  intros req1 req2 H1 H2 Heq.
  assert (Hboth : req_originalUrl req1 = req_originalUrl req2 ∧
                  subject_text req1 = subject_text req2).
  { unfold cacheKey_of in Heq. fold (subject_text req1) in Heq.
    fold (subject_text req2) in Heq.
    change (":" +:+ subject_text req1) with (String ":" (subject_text req1)) in Heq.
    change (":" +:+ subject_text req2) with (String ":" (subject_text req2)) in Heq.
    injection Heq as Heq. now apply (app_sep_inj ":"). }
  destruct Hboth as [Hurl Hsub]. split; [exact Hurl|]. split; [exact Hsub|].
  intros s1 s2 Hs1 Hn1 Hs2 Hn2. unfold subject_text, or_else in Hsub.
  rewrite Hs1, Hs2 in Hsub. cbn [truthy] in Hsub.
  destruct (String.eqb_spec s1 "") as [|_]; [done|].
  destruct (String.eqb_spec s2 "") as [|_]; [done|].
  exact Hsub.
Qed.

Section Cache.

Variable E : env.

(** X12 — [cacheMiddleware] never throws and never calls out; the request
    it passes on is the one it was given, and when it answers itself the
    status is 200. *)
Theorem cacheMiddleware_answers_200_or_next
    (req : request) (res : res_obj) (w : world) :
  ∃ s w', cacheMiddleware E req res w = (Ok s, w') ∧
          calls w' = calls w ∧ kafka_log w' = kafka_log w ∧
          (∀ req' res', s = Next req' res' → req' = req) ∧
          (∀ r, s = Done r → res_status r = 200).
Proof.
  unfold cacheMiddleware.
  destruct (negb _).
  { do 2 eexists. split; [reflexivity|]. repeat split; congruence. }
  unfold try_catch, bind, Redis.get, Redis.command, JSON_parse_call.
  destruct (redis_faults w) as [|[] fs]; world_simpl.
  all: try destruct (falsy_text _); world_simpl.
  all: try destruct (JSON_parse E _); cbn [ret throw]; try run_res_json.
  all: do 2 eexists; (split; [reflexivity|]); world_simpl;
    repeat split; try congruence.
  all: try (intros r [= <-]; reflexivity).
  all: cbn [calls kafka_log with_redis_faults] in *; congruence.
Qed.

(** X13 — the paths of a GET through [cacheMiddleware] that do not answer
    from the cache.  When the lookup fails, or when the entry is not JSON,
    [next()] is called with [res.json] left as it is; when there is no entry
    (or an empty one), [next()] is called with [res.json] replaced by the
    wrapper for this key.  In each case the store is left as it is. *)
Theorem cacheMiddleware_miss_paths (req : request) (res : res_obj) (w : world) :
  req_method req = "GET" →
  let cached := Redis.find (req_now req) (cacheKey_of req) (redis_db w) in
  (head (redis_faults w) = Some true →
   ∃ w', cacheMiddleware E req res w = (Ok (Next req res), w') ∧
         redis_db w' = redis_db w) ∧
  (head (redis_faults w) ≠ Some true →
   (∀ e, cached = Some e → ent_value e ≠ "" →
         JSON_parse E (ent_value e) = None →
         ∃ w', cacheMiddleware E req res w = (Ok (Next req res), w') ∧
               redis_db w' = redis_db w) ∧
   (falsy_text (ent_value <$> cached) = true →
    ∃ w', cacheMiddleware E req res w
            = (Ok (Next req (ResObj (Some (cacheKey_of req)))), w') ∧
          redis_db w' = redis_db w)).
Proof.
  intros Hget cached. unfold cacheMiddleware. rewrite Hget.
  cbn [String.eqb Ascii.eqb Bool.eqb negb].
  unfold try_catch, bind, Redis.get, Redis.command, JSON_parse_call.
  split; [|split].
  - intros Hf. destruct (redis_faults w) as [|[] fs]; try discriminate.
    eexists. split; reflexivity.
  - intros e He Hne Hparse.
    destruct (redis_faults w) as [|[] fs]; [|done|]; world_simpl;
      fold cached; rewrite He; cbn [fmap option_fmap option_map];
      rewrite (falsy_text_Some _ Hne); cbn [default from_option id];
      rewrite Hparse; eexists; split; reflexivity.
  - intros Hmiss.
    destruct (redis_faults w) as [|[] fs]; [|done|]; world_simpl;
      fold cached; rewrite Hmiss; eexists; split; reflexivity.
Qed.

(** X14 — the wrapper that replaces [res.json] sends the body with the
    status it is given and stores the JSON text of the body under the key
    with a deadline of 300 seconds, whatever the status is; when the write
    fails the body is sent all the same and the store is left as it is. *)
Theorem cache_wrapper_stores_body
    (key : string) (t status : Z) (data : jsval) (w : world) :
  ∃ w', res_json E (ResObj (Some key)) t status data w
          = (Ok (Response status (SentJson data)), w') ∧
        (head (redis_faults w) ≠ Some true →
         redis_db w' = <[key := Entry (JSON_stringify E data)
                                  (Some (t + 1000 * 300))]> (redis_db w)) ∧
        (head (redis_faults w) = Some true → redis_db w' = redis_db w).
Proof.
  unfold res_json, detached, try_catch, bind, Redis.setEx, Redis.command.
  cbn [json_wrapper].
  destruct (redis_faults w) as [|[] fs]; eexists;
    (split; [reflexivity|]); split; intros; try done.
Qed.

(** X15 — round trip through the cache.  A body that went through the
    wrapper at time [t], with a store that answers and a JSON text that
    reads back, is what a GET with the same key gets from [cacheMiddleware]
    at any time before [t + 300000] ms, always with status 200 whatever the
    status of the stored response was; from [t + 300000] on the entry is
    gone and the request is passed on with the wrapper installed. *)
Theorem cached_body_round_trip
    (req : request) (t status : Z) (data : jsval) (w : world) :
  req_method req = "GET" →
  redis_faults w = [] →
  JSON_stringify E data ≠ "" →
  JSON_parse E (JSON_stringify E data) = Some data →
  let w1 := (res_json E (ResObj (Some (cacheKey_of req))) t status data w).2 in
  (req_now req < t + 300000 →
   outcome (cacheMiddleware E req (ResObj None) w1)
   = Ok (Done (Response 200 (SentJson data)))) ∧
  (t + 300000 <= req_now req →
   outcome (cacheMiddleware E req (ResObj None) w1)
   = Ok (Next req (ResObj (Some (cacheKey_of req))))).
Proof.
  intros Hget Hf Hne Hparse w1.
  assert (Hw1 : redis_db w1 !! cacheKey_of req
                = Some (Entry (JSON_stringify E data) (Some (t + 1000 * 300)))
                ∧ redis_faults w1 = []).
  { unfold w1, res_json, detached, try_catch, bind, Redis.setEx, Redis.command.
    cbn [json_wrapper]. rewrite Hf. cbn. now rewrite lookup_insert_eq. }
  destruct Hw1 as [Hdb Hf1]. clearbody w1.
  unfold outcome, cacheMiddleware. rewrite Hget.
  cbn [String.eqb Ascii.eqb Bool.eqb negb].
  unfold try_catch, bind, Redis.get, Redis.command, JSON_parse_call.
  rewrite Hf1. unfold Redis.find. rewrite Hdb. unfold Redis.live.
  cbn [ent_expireAt]. split; intros Ht.
  - assert ((req_now req <? t + 1000 * 300) = true) as -> by lia.
    cbn [fmap option_fmap option_map ent_value].
    rewrite (falsy_text_Some _ Hne). cbn [default from_option id].
    rewrite Hparse. reflexivity.
  - assert ((req_now req <? t + 1000 * 300) = false) as -> by lia.
    reflexivity.
Qed.

End Cache.

(** ** Events and routes *)

Lemma assoc_assign_eq (name : string) (v : jsval) (fields : list (string * jsval)) :
  assoc name (assign name v fields) = v.
Proof.
  induction fields as [|[k x] fields IH]; cbn [assign assoc].
  - now rewrite String.eqb_refl.
  - destruct (String.eqb k name) eqn:Hk; cbn [assoc]; now rewrite Hk.
Qed.

Lemma assoc_assign_ne (name other : string) (v : jsval)
    (fields : list (string * jsval)) :
  other ≠ name → assoc other (assign name v fields) = assoc other fields.
Proof.
  intros Hne. induction fields as [|[k x] fields IH]; cbn [assign assoc].
  - apply String.eqb_neq in Hne. rewrite String.eqb_sym in Hne. now rewrite Hne.
  - destruct (String.eqb_spec k name) as [->|Hk]; cbn [assoc].
    + apply String.eqb_neq in Hne. rewrite String.eqb_sym in Hne.
      now rewrite Hne.
    + now rewrite IH.
Qed.

Section Routes.

Variable E : env.

(** X16 — [publishEvent] is best effort: it never throws and touches
    neither the store nor the call log.  When the producer rejects the send
    nothing is logged; otherwise exactly one message goes to the topic,
    keyed by the [userId] of the event or by ["system"] when it has none,
    and its object carries the clock's time stamp in place of the event's
    own, the other fields as they were. *)
Theorem publishEvent_best_effort
    (t : Z) (topic : string) (event : list (string * jsval)) (w : world) :
  ∃ w', publishEvent E t topic event w = (Ok tt, w') ∧
        redis_db w' = redis_db w ∧ calls w' = calls w ∧
        (head (kafka_faults w) = Some true → kafka_log w' = kafka_log w) ∧
        (head (kafka_faults w) ≠ Some true →
         ∃ fields,
           kafka_log w'
           = (kafka_log w ++
              [Message topic (or_else (assoc "userId" event) (JStr "system"))
                 (JSON_stringify E (JObj fields))])%list ∧
           assoc "timestamp" fields = JStr (toISOString E t) ∧
           ∀ name, name ≠ "timestamp" → assoc name fields = assoc name event).
Proof.
  unfold publishEvent, try_catch, producer_send.
  destruct (kafka_faults w) as [|[] fs]; eexists;
    (split; [reflexivity|]); world_simpl; repeat split; try done.
  all: intros _; eexists; split; [reflexivity|];
    split; [apply assoc_assign_eq | intros name Hne; now apply assoc_assign_ne].
Qed.

Lemma setImmediate_publish_any t topic event w :
  ∃ w' l, setImmediate (publishEvent E t topic event) w = (Ok tt, w') ∧
          kafka_log w' = (kafka_log w ++ l)%list ∧ (length l <= 1)%nat ∧
          redis_db w' = redis_db w ∧ redis_faults w' = redis_faults w ∧
          calls w' = calls w.
Proof.
  unfold setImmediate, detached, try_catch, publishEvent, try_catch,
    producer_send.
  destruct (kafka_faults w) as [|[] fs].
  - eexists _, [_]. split; [reflexivity|]. cbn. repeat split; lia.
  - eexists _, []. split; [reflexivity|]. cbn. rewrite app_nil_r.
    repeat split; lia.
  - eexists _, [_]. split; [reflexivity|]. cbn. repeat split; lia.
Qed.

Lemma quiet_step_any (w : world) :
  ∃ w' l, (ret tt : M unit) w = (Ok tt, w') ∧
          kafka_log w' = (kafka_log w ++ l)%list ∧ (length l <= 1)%nat ∧
          redis_db w' = redis_db w ∧ redis_faults w' = redis_faults w ∧
          calls w' = calls w.
Proof. exists w, []. cbn. rewrite app_nil_r. repeat split; lia. Qed.

(** X17 — the two [onProxyRes] hooks return normally in every state of the
    producer, add at most one message to the log and touch neither the
    store nor the call log. *)
Theorem hooks_publish_at_most_once (pr : proxyRes) (req : request) (w : world) :
  (∃ w' l, authProxy_onProxyRes E pr req w = (Ok tt, w') ∧
           kafka_log w' = (kafka_log w ++ l)%list ∧ (length l <= 1)%nat ∧
           redis_db w' = redis_db w ∧ redis_faults w' = redis_faults w ∧
           calls w' = calls w) ∧
  (∃ w' l, fileProxy_onProxyRes E pr req w = (Ok tt, w') ∧
           kafka_log w' = (kafka_log w ++ l)%list ∧ (length l <= 1)%nat ∧
           redis_db w' = redis_db w ∧ redis_faults w' = redis_faults w ∧
           calls w' = calls w).
Proof.
  split.
  - unfold authProxy_onProxyRes, bind. cbv zeta.
    destruct (_ && _ && (statusCode pr =? 200)) eqn:Hlogin.
    + apply pattern_test in Hlogin as (_ & _ & Hst).
      assert ((statusCode pr =? 201) = false) as -> by lia.
      rewrite andb_false_r.
      match goal with |- context [setImmediate (publishEvent E ?t ?tp ?ev) w] =>
        destruct (setImmediate_publish_any t tp ev w) as (w1 & l & -> & H)
      end.
      exists w1, l. auto.
    + cbn [ret].
      destruct (_ && _ && (statusCode pr =? 201)).
      * apply setImmediate_publish_any.
      * apply quiet_step_any.
  - unfold fileProxy_onProxyRes, bind. cbv zeta.
    destruct (_ && _ && (statusCode pr =? 201)) eqn:Hup.
    + apply pattern_test in Hup as (Hm & _ & _). rewrite Hm.
      cbn [String.eqb Ascii.eqb Bool.eqb andb].
      match goal with |- context [setImmediate (publishEvent E ?t ?tp ?ev) w] =>
        destruct (setImmediate_publish_any t tp ev w) as (w1 & l & -> & H)
      end.
      exists w1, l. auto.
    + cbn [ret].
      destruct (_ && (statusCode pr =? 200)).
      * apply setImmediate_publish_any.
      * apply quiet_step_any.
Qed.

Lemma proxy_run target hook req res w :
  (∀ pr w0, ∃ w' l, hook pr req w0 = (Ok tt, w') ∧
                    kafka_log w' = (kafka_log w0 ++ l)%list ∧ (length l <= 1)%nat ∧
                    redis_db w' = redis_db w0 ∧
                    redis_faults w' = redis_faults w0 ∧
                    calls w' = calls w0) →
  ∃ r w', createProxyMiddleware E target hook req res w = (Ok r, w') ∧
          calls w' = (calls w ++ [CallBackend target req])%list ∧
          redis_db w' = redis_db w ∧ redis_faults w' = redis_faults w.
Proof.
  intros Hhook. unfold createProxyMiddleware.
  destruct (upstream E target req) as [pr|].
  - unfold bind, detached, try_catch.
    destruct (Hhook pr (with_call (CallBackend target req) w))
      as (w' & l & -> & _ & _ & Hdb & Hf & Hc).
    do 2 eexists. split; [reflexivity|]. auto.
  - do 2 eexists. split; [reflexivity|]. auto.
Qed.

Lemma verifyToken_calls (req : request) (res : res_obj) (w : world) :
  ∃ s w' l, verifyToken E req res w = (Ok s, w') ∧
            calls w' = (calls w ++ l)%list ∧
            (l = [] ∨ ∃ tok, l = [CallVerify tok]).
Proof.
  unfold verifyToken, try_catch, bind.
  destruct (falsy_text (bearer req)).
  { run_res_json. eexists _, _, []. split; [reflexivity|].
    rewrite app_nil_r. auto. }
  unfold Redis.get, Redis.setEx, Redis.command, jwt_verify_call.
  set (tok := default "" (bearer req)).
  destruct (jwt_verify E (req_now req) tok) as [decoded|].
  all: destruct (redis_faults w) as [|b1 [|b2 [|b3 fs]]] eqn:Hf;
    try destruct b1; try destruct b2; try destruct b3; world_simpl.
  all: try destruct (bool_decide _); world_simpl; rewrite ?Hf; world_simpl.
  all: try destruct (falsy_text _); world_simpl; rewrite ?Hf; world_simpl.
  all: try run_res_json.
  all: try (eexists _, _, []; split; [reflexivity|]; rewrite app_nil_r;
            split; [by cbn [calls with_redis_faults] in * | by left]).
  all: eexists _, _, [CallVerify tok]; split; [reflexivity|];
    split; [|right; eauto]; cbn [calls with_redis_faults with_call with_db] in *;
    congruence.
Qed.

(** X18 — the file service is only called for a verified identity.  In
    every world, [/api/files] adds to the call log nothing, or one call of
    [jwt.verify], or a call of [jwt.verify] that succeeded followed by one
    call of the file service with the decoded payload as [req.user]. *)
Theorem files_route_calls (req : request) (w : world) :
  ∃ r w' l, api_files E req w = (Ok r, w') ∧
            calls w' = (calls w ++ l)%list ∧
            (l = [] ∨
             (∃ tok, l = [CallVerify tok]) ∨
             (∃ tok decoded,
                bearer req = Some tok ∧
                jwt_verify E (req_now req) tok = Some decoded ∧
                l = [CallVerify tok;
                     CallBackend FILE_SERVICE_URL (set_user decoded req)])).
Proof.
  unfold api_files, bind.
  destruct (verifyToken_calls req (ResObj None) w) as (s & w1 & l & Hrun & Hc & Hl).
  rewrite Hrun. destruct s as [r|req1 res1].
  { exists r, w1, l. split; [reflexivity|]. split; [exact Hc|].
    destruct Hl; auto. }
  destruct (proceeds_only_verified E req _ w req1 res1 w1 Hrun)
    as (tok & decoded & Hb & Hjwt & -> & -> & Hc1).
  destruct (cacheMiddleware_answers_200_or_next E (set_user decoded req)
              (ResObj None) w1) as (s2 & w2 & -> & Hc2 & _ & Hreq & _).
  destruct s2 as [r|req2 res2].
  { exists r, w2, [CallVerify tok]. split; [reflexivity|].
    split; [congruence | eauto]. }
  rewrite (Hreq req2 res2 eq_refl).
  destruct (proxy_run FILE_SERVICE_URL (fileProxy_onProxyRes E)
              (set_user decoded req) res2 w2) as (r & w3 & Hp & Hc3 & _).
  { intros pr w0. apply hooks_publish_at_most_once. }
  exists r, w3, [CallVerify tok; CallBackend FILE_SERVICE_URL (set_user decoded req)].
  split; [exact Hp|]. split.
  - rewrite Hc3, Hc2, Hc1, <- app_assoc. reflexivity.
  - right; right. eauto.
Qed.

(** X19 — [/api/auth] is proxied without a look at the token: for every
    request, with or without Authorization header, the auth service is
    called once, [jwt.verify] is not called, and no command is sent to the
    store. *)
Theorem auth_route_skips_validation (req : request) (w : world) :
  ∃ r w', api_auth E req w = (Ok r, w') ∧
          calls w' = (calls w ++ [CallBackend AUTH_SERVICE_URL req])%list ∧
          redis_db w' = redis_db w ∧ redis_faults w' = redis_faults w.
Proof.
  unfold api_auth, authProxy. apply proxy_run.
  intros pr w0. apply hooks_publish_at_most_once.
Qed.

End Routes.

Section Rejections.

Variable E : env.

(** X20 — a request to [/api/files] whose token [jwt.verify] refuses (a bad
    signature, an expired token) is answered 401; nothing is written to the
    store, no event is published and the file service is not called. *)
Theorem refused_token_leaves_no_trace (req : request) (w : world) (tok : string) :
  bearer req = Some tok →
  jwt_verify E (req_now req) tok = None →
  ∃ r w', api_files E req w = (Ok r, w') ∧ res_status r = 401 ∧
          redis_db w' = redis_db w ∧ kafka_log w' = kafka_log w ∧
          ∀ target r', CallBackend target r' ∈ calls w' →
                       CallBackend target r' ∈ calls w.
Proof.
  intros Hb Hjwt.
  unfold api_files, bind, verifyToken, try_catch, bind. rewrite Hb.
  cbn [falsy_text default from_option id res_json json_wrapper].
  destruct (String.eqb tok "").
  { do 2 eexists. split; [reflexivity|]. repeat split; auto. }
  unfold Redis.get, Redis.command, jwt_verify_call. rewrite Hjwt.
  destruct (redis_faults w) as [|[] fs]; world_simpl;
    try destruct (bool_decide _); world_simpl;
    do 2 eexists; (split; [reflexivity|]); world_simpl;
    (split; [reflexivity|]); (split; [reflexivity|]); (split; [reflexivity|]);
    intros target r' Hin; try exact Hin;
    apply elem_of_app in Hin as [Hin|Hin]; try exact Hin;
    apply list_elem_of_singleton in Hin; discriminate.
Qed.

End Rejections.

(** ** Worked cases of the further properties *)

Lemma increment_fixed_window_witness :
  (∃ w', RedisStore.increment 1000 Sample.client counted_seven = (Ok (7 + 1), w') ∧
         store_counting Sample.client (7 + 1) 900000 w') ∧
  (∃ w', RedisStore.increment 900000 Sample.client counted_seven = (Ok 1, w') ∧
         store_counting Sample.client 1 (900000 + 1000 * 900) w').
Proof.
  assert (Hc : store_counting Sample.client 7 900000 counted_seven)
    by (split; reflexivity).
  split.
  - apply (increment_fixed_window Sample.client 7 900000 1000 counted_seven Hc);
      lia.
  - apply (increment_fixed_window Sample.client 7 900000 900000 counted_seven Hc);
      lia.
Defined.

Lemma increment_decrement_round_trip_witness :
  ∃ w1 w2,
    RedisStore.increment 1000 Sample.client counted_seven = (Ok (7 + 1), w1) ∧
    RedisStore.decrement 2000 Sample.client w1 = (Ok tt, w2) ∧
    redis_db w2 = redis_db counted_seven.
Proof.
  apply (increment_decrement_round_trip Sample.client 7 900000 1000 2000
           counted_seven).
  - split; reflexivity.
  - lia.
  - lia.
  - lia.
Defined.

Lemma resetKey_then_increment_witness :
  ∃ w1 w2, RedisStore.resetKey Sample.client not_a_counter = (Ok tt, w1) ∧
           RedisStore.increment 5 Sample.client w1 = (Ok 1, w2) ∧
           store_counting Sample.client 1 (5 + 1000 * 900) w2.
Proof.
  apply (resetKey_then_increment Sample.client 5 not_a_counter). reflexivity.
Defined.

Lemma RedisStore_keys_isolated_witness :
  redis_db (RedisStore.increment 5 "198.51.100.4" counted_seven).2 !! Sample.client
    = redis_db counted_seven !! Sample.client ∧
  redis_db (RedisStore.decrement 5 "198.51.100.4" counted_seven).2 !! Sample.client
    = redis_db counted_seven !! Sample.client ∧
  redis_db (RedisStore.resetKey "198.51.100.4" counted_seven).2 !! Sample.client
    = redis_db counted_seven !! Sample.client.
Proof.
  apply (RedisStore_keys_isolated Sample.client "198.51.100.4" 5 counted_seven).
  discriminate.
Defined.

Lemma expire_failure_leaves_counter_forever_witness :
  ∃ w1, RedisStore.increment 0 Sample.client expire_fails = (Ok 1, w1) ∧
        redis_db w1 !! Sample.client = Some (Entry (print_int 1) None) ∧
        (increments [10; 5000000000] Sample.client w1).1
          = (λ i : nat, 2 + Z.of_nat i) <$> seq 0 2 ∧
        redis_db (increments [10; 5000000000] Sample.client w1).2 !! Sample.client
          = Some (Entry (print_int (1 + Z.of_nat 2)) None).
Proof.
  apply (expire_failure_leaves_counter_forever Sample.client 0 [10; 5000000000]
           expire_fails); reflexivity.
Defined.

Lemma bearer_is_second_word_witness :
  bearer (one_word_files 0) = None ∧
  bearer (Sample.list_files 0) = Some "good" ∧
  bearer (basic_files 0) = Some "good".
Proof.
  split; [|split].
  - apply (proj1 (bearer_is_second_word (one_word_files 0)) "Bearer");
      reflexivity.
  - apply (proj1 (proj2 (bearer_is_second_word (Sample.list_files 0)))
             "Bearer" "good"); reflexivity.
  - apply (proj2 (proj2 (bearer_is_second_word (basic_files 0)))
             "Basic" "good" "extra"); reflexivity.
Defined.

Lemma missing_token_rejected_witness :
  verifyToken Sample.E (Sample.ping 0) (ResObj None) Sample.revoked
    = (Ok (Done (Response 401 (SentJson (error_body "No token provided")))),
       Sample.revoked) ∧
  verifyToken Sample.E (one_word_files 0) (ResObj None) Sample.quiet
    = (Ok (Done (Response 401 (SentJson (error_body "No token provided")))),
       Sample.quiet) ∧
  verifyToken Sample.E (two_spaces_files 0) (ResObj None) Sample.quiet
    = (Ok (Done (Response 401 (SentJson (error_body "No token provided")))),
       Sample.quiet).
Proof.
  split; [|split].
  - apply (missing_token_rejected Sample.E (Sample.ping 0) Sample.revoked).
    left. reflexivity.
  - apply (missing_token_rejected Sample.E (one_word_files 0) Sample.quiet).
    right; left. exists "Bearer". split; reflexivity.
  - apply (missing_token_rejected Sample.E (two_spaces_files 0) Sample.quiet).
    right; right. exists "Bearer", "good". split; reflexivity.
Defined.

Lemma verifyToken_answers_401_witness :
  ∃ s w', verifyToken Sample.E (Sample.stale_files 0) (ResObj None) Sample.quiet
            = (Ok s, w') ∧
          ∀ r, s = Done r →
               res_status r = 401 ∧ ∃ text, res_sent r = SentJson (error_body text).
Proof.
  apply (verifyToken_answers_401 Sample.E (Sample.stale_files 0) (ResObj None)
           Sample.quiet).
Defined.

Lemma identity_cache_filled_once_witness :
  ∃ w', verifyToken Sample.E (Sample.list_files 0) (ResObj None) Sample.quiet
          = (Ok (Next (set_user Sample.identity (Sample.list_files 0)) (ResObj None)),
             w') ∧
        redis_db w'
          = <["user:42" := Entry "{}" (Some (0 + 1000 * 3600))]>
              (redis_db Sample.quiet) ∧
        ∃ w'', verifyToken Sample.E (Sample.list_files 7) (ResObj None)
                 Sample.identity_cached
               = (Ok (Next (set_user Sample.identity (Sample.list_files 7))
                        (ResObj None)), w'') ∧
               redis_db w'' = redis_db Sample.identity_cached.
Proof.
  destruct (identity_cache_filled_once Sample.E (Sample.list_files 0) (ResObj None)
              Sample.quiet "good" Sample.identity)
    as (w' & Hrun & Hmiss & _); try reflexivity; try discriminate.
  destruct (identity_cache_filled_once Sample.E (Sample.list_files 7) (ResObj None)
              Sample.identity_cached "good" Sample.identity)
    as (w'' & Hrun' & _ & Hhit); try reflexivity; try discriminate.
  exists w'. split; [exact Hrun|]. split; [apply Hmiss; reflexivity|].
  exists w''. split; [exact Hrun'|]. apply Hhit. reflexivity.
Defined.

Lemma cache_key_separates_witness :
  req_originalUrl (set_user Sample.identity (Sample.list_files 0))
    = req_originalUrl (set_user Sample.identity (Sample.list_files 9)) ∧
  subject_text (set_user Sample.identity (Sample.list_files 0))
    = subject_text (set_user Sample.identity (Sample.list_files 9)) ∧
  "42" = "42".
Proof.
  destruct (proj1 cache_key_separates
              (set_user Sample.identity (Sample.list_files 0))
              (set_user Sample.identity (Sample.list_files 9))
              eq_refl eq_refl eq_refl) as (Hurl & Hsub & Hid).
  split; [exact Hurl|]. split; [exact Hsub|].
  apply (Hid "42" "42"); first [reflexivity | discriminate].
Defined.

Lemma cacheMiddleware_answers_200_or_next_witness :
  ∃ s w', cacheMiddleware Sample.E (Sample.list_files 0) (ResObj None)
            Sample.store_down = (Ok s, w') ∧
          calls w' = calls Sample.store_down ∧
          kafka_log w' = kafka_log Sample.store_down ∧
          (∀ req' res', s = Next req' res' → req' = Sample.list_files 0) ∧
          (∀ r, s = Done r → res_status r = 200).
Proof.
  apply (cacheMiddleware_answers_200_or_next Sample.E (Sample.list_files 0)
           (ResObj None) Sample.store_down).
Defined.

Lemma cacheMiddleware_miss_paths_witness :
  (∃ w', cacheMiddleware Sample.E (Sample.list_files 0) (ResObj None)
           Sample.store_down
         = (Ok (Next (Sample.list_files 0) (ResObj None)), w') ∧
         redis_db w' = redis_db Sample.store_down) ∧
  (∃ w', cacheMiddleware Sample.E (set_user Sample.identity (Sample.list_files 0))
           (ResObj None) not_json_cached
         = (Ok (Next (set_user Sample.identity (Sample.list_files 0)) (ResObj None)),
            w') ∧
         redis_db w' = redis_db not_json_cached) ∧
  (∃ w', cacheMiddleware Sample.E (Sample.list_files 0) (ResObj None) Sample.quiet
         = (Ok (Next (Sample.list_files 0)
                  (ResObj (Some (cacheKey_of (Sample.list_files 0))))), w') ∧
         redis_db w' = redis_db Sample.quiet).
Proof.
  split; [|split].
  - apply (cacheMiddleware_miss_paths Sample.E (Sample.list_files 0) (ResObj None)
             Sample.store_down); reflexivity.
  - destruct (cacheMiddleware_miss_paths Sample.E
                (set_user Sample.identity (Sample.list_files 0)) (ResObj None)
                not_json_cached eq_refl) as [_ Hok].
    destruct Hok as [Hbad _]; [discriminate|].
    apply (Hbad (Entry "<html>" (Some 300000))); [reflexivity | discriminate |].
    reflexivity.
  - destruct (cacheMiddleware_miss_paths Sample.E (Sample.list_files 0)
                (ResObj None) Sample.quiet eq_refl) as [_ Hok].
    destruct Hok as [_ Hmiss]; [discriminate|].
    apply Hmiss. reflexivity.
Defined.

Lemma cache_wrapper_stores_body_witness :
  ∃ w', res_json Sample.E (ResObj (Some "cache:/api/files:42")) 0 404 (JBool false)
          Sample.quiet
        = (Ok (Response 404 (SentJson (JBool false))), w') ∧
        redis_db w'
        = <["cache:/api/files:42" := Entry "false" (Some (0 + 1000 * 300))]>
            (redis_db Sample.quiet) ∧
        ∃ w'', res_json Sample.E (ResObj (Some "cache:/api/files:42")) 0 404
                 (JBool false) Sample.store_down
               = (Ok (Response 404 (SentJson (JBool false))), w'') ∧
               redis_db w'' = redis_db Sample.store_down.
Proof.
  destruct (cache_wrapper_stores_body Sample.E "cache:/api/files:42" 0 404
              (JBool false) Sample.quiet) as (w' & Hrun & Hok & _).
  destruct (cache_wrapper_stores_body Sample.E "cache:/api/files:42" 0 404
              (JBool false) Sample.store_down) as (w'' & Hrun' & _ & Hfail).
  exists w'. split; [exact Hrun|]. split; [apply Hok; discriminate|].
  exists w''. split; [exact Hrun'|]. apply Hfail. reflexivity.
Defined.

Lemma cached_body_round_trip_witness :
  let req := set_user Sample.identity (Sample.list_files 299999) in
  let late := set_user Sample.identity (Sample.list_files 300000) in
  outcome (cacheMiddleware Sample.E req (ResObj None)
             (res_json Sample.E (ResObj (Some (cacheKey_of req))) 0 404
                (JBool false) Sample.quiet).2)
  = Ok (Done (Response 200 (SentJson (JBool false)))) ∧
  outcome (cacheMiddleware Sample.E late (ResObj None)
             (res_json Sample.E (ResObj (Some (cacheKey_of late))) 0 404
                (JBool false) Sample.quiet).2)
  = Ok (Next late (ResObj (Some (cacheKey_of late)))).
Proof.
  intros req late. split.
  - apply (cached_body_round_trip Sample.E req 0 404 (JBool false) Sample.quiet);
      first [reflexivity | discriminate | (cbn; lia)].
  - apply (cached_body_round_trip Sample.E late 0 404 (JBool false) Sample.quiet);
      first [reflexivity | discriminate | (cbn; lia)].
Defined.

Lemma publishEvent_best_effort_witness :
  ∃ w', publishEvent Sample.E 7 "file-events"
          [("type", JStr "FILE_DELETED"); ("userId", JStr "42");
           ("timestamp", JStr "caller")] Sample.quiet = (Ok tt, w') ∧
        ∃ fields,
          kafka_log w'
          = (kafka_log Sample.quiet ++
             [Message "file-events" (JStr "42")
                (JSON_stringify Sample.E (JObj fields))])%list ∧
          assoc "timestamp" fields = JStr "7" ∧
          assoc "userId" fields = JStr "42".
Proof.
  destruct (publishEvent_best_effort Sample.E 7 "file-events"
              [("type", JStr "FILE_DELETED"); ("userId", JStr "42");
               ("timestamp", JStr "caller")] Sample.quiet)
    as (w' & Hrun & _ & _ & _ & Hsent).
  destruct Hsent as (fields & Hlog & Hstamp & Hrest); [discriminate|].
  exists w'. split; [exact Hrun|]. exists fields.
  split; [exact Hlog|]. split; [exact Hstamp|].
  rewrite Hrest by discriminate. reflexivity.
Defined.

Lemma refused_token_leaves_no_trace_witness :
  ∃ r w', api_files Sample.E (Sample.stale_files 0) Sample.identity_cached
            = (Ok r, w') ∧ res_status r = 401 ∧
          redis_db w' = redis_db Sample.identity_cached ∧
          kafka_log w' = kafka_log Sample.identity_cached ∧
          ∀ target r', CallBackend target r' ∈ calls w' →
                       CallBackend target r' ∈ calls Sample.identity_cached.
Proof.
  apply (refused_token_leaves_no_trace Sample.E (Sample.stale_files 0)
           Sample.identity_cached "expired"); reflexivity.
Defined.
